(** * The scammer-report record store of [server.js]

    A shallow embedding of the request handlers of [src/server.js]
    ([readScammers], [writeScammers] and the routes [GET /api/scammers],
    [POST /api/scammer], [DELETE /api/scammer/:id], [GET /api/search]),
    followed by the properties of the record store stated in the
    specification.

    Modelling conventions.
    - A JavaScript string is a sequence of code units; the model keeps the
      code units of the Latin-1 range (the type [string] of Rocq), and gives
      [trim], [toLowerCase] and [includes] their ECMAScript meaning there.
    - A field of [req.body], [req.query] is [None] when it is absent
      ([undefined]) and [Some s] when it is the text [s].
    - The handlers are synchronous functions: on Node's event loop each one
      runs to completion, so a handler is a function from the world before
      the request to a response and the world after it.
    - The world holds the wall clock, the collection document
      [data/scammers.json] and the directory [uploads/].
    - The text of the collection document is represented by what
      [JSON.parse] makes of it: it throws, or it gives an array of reports.
      A text that parses to anything else is not represented.
    - The [createdAt] text of a report is represented by the instant it
      denotes. *)

From Stdlib Require Import ZArith List Ascii String Sorting.Sorted Sorting.Permutation.
From stdpp Require Import base decidable numbers option list strings pretty gmap sets.

#[local] Set Warnings "-clear-no-such-hyp".

Local Open Scope string_scope.
Local Open Scope list_scope.
Local Open Scope Z_scope.

(** ** JavaScript strings *)

Module JsString.

Definition code (c : ascii) : N := N_of_ascii c.

(** ECMAScript [WhiteSpace] and [LineTerminator] code points below U+0100:
    TAB, LF, VT, FF, CR, SP and NBSP. *)
Definition isWhiteSpace (c : ascii) : bool :=
  let n := code c in
  ((9 <=? n)%N && (n <=? 13)%N) || (n =? 32)%N || (n =? 160)%N.

Fixpoint trimStart (s : string) : string :=
  match s with
  | EmptyString => EmptyString
  | String c s' => if isWhiteSpace c then trimStart s' else s
  end.

Definition trimEnd (s : string) : string :=
  String.rev (trimStart (String.rev s)).

(** [String.prototype.trim] *)
Definition trim (s : string) : string := trimEnd (trimStart s).

(** Upper-case letters below U+0100: A-Z, and U+00C0-U+00DE without the
    multiplication sign U+00D7; each has its lower-case form 32 above. *)
Definition isUpper (c : ascii) : bool :=
  let n := code c in
  ((65 <=? n)%N && (n <=? 90)%N)
  || ((192 <=? n)%N && (n <=? 222)%N && negb (n =? 215)%N).

Definition toLowerCase_char (c : ascii) : ascii :=
  if isUpper c then ascii_of_N (code c + 32) else c.

(** [String.prototype.toLowerCase] *)
Fixpoint toLowerCase (s : string) : string :=
  match s with
  | EmptyString => EmptyString
  | String c s' => String (toLowerCase_char c) (toLowerCase s')
  end.

(** [s.startsWith(t)] *)
Fixpoint startsWith (s t : string) : bool :=
  match t, s with
  | EmptyString, _ => true
  | String _ _, EmptyString => false
  | String b t', String a s' => bool_decide (a = b) && startsWith s' t'
  end.

(** [s.includes(t)]: [t] occurs in [s] at some position. *)
Fixpoint includes (s t : string) : bool :=
  startsWith s t ||
  match s with
  | EmptyString => false
  | String _ s' => includes s' t
  end.

(** Truthiness of a possibly absent text: [undefined] and [''] are falsy. *)
Definition truthy (v : option string) : bool :=
  match v with
  | None => false
  | Some s => negb (bool_decide (s = EmptyString))
  end.

(** [t] is a substring of [s]. *)
Definition substring_of (t s : string) : Prop :=
  exists pre post : string, s = pre +:+ t +:+ post.

End JsString.

Import JsString.

(** ** Dates *)

(** A [Date] is its time value, the milliseconds since the epoch. *)
Record Date := { getTime : Z }.

(** The text produced by [Date.prototype.toISOString], kept as the instant
    it denotes: the ISO-8601 text has millisecond precision, and
    [new Date(text)] reads the same time value back. *)
Inductive IsoString := Iso (ms : Z).

Definition toISOString (d : Date) : IsoString := Iso (getTime d).

(** [new Date(text)] *)
Definition Date_of (t : IsoString) : Date :=
  match t with Iso ms => {| getTime := ms |} end.

(** ** Reports *)

Record Report := {
  id : string;
  name : string;
  scamType : string;
  phone : string;
  website : string;
  description : string;
  evidence : list string;
  createdAt : IsoString
}.

Global Instance IsoString_eq_dec : EqDecision IsoString.
Proof. solve_decision. Defined.

Global Instance Report_eq_dec : EqDecision Report.
Proof. solve_decision. Defined.

(** ** The world: clock, collection document, upload directory *)

Inductive JsError :=
| ENOENT
| EACCES
| SyntaxError
| TypeError
| SystemError (code : string).   (* any other failure of the file system *)

(** The text of a file, kept as what [JSON.parse] makes of it: a text on
    which [JSON.parse] throws (the empty text is one), or the serialization
    of an array of reports.  [JSON.stringify] followed by [JSON.parse] gives
    the array back. *)
Inductive Document :=
| Malformed (raw : string)
| Collection (scammers : list Report).

Inductive FileNode :=
| NoEntry
| Unreadable (e : JsError)
| File (text : Document).

(** How [fs.writeFileSync] fails on [DATA_FILE]: before the file is opened,
    so that it stays as it was; or after it has been opened, which empties
    it, with only a part of the text written.  A proper part of the
    serialization of an array is a text on which [JSON.parse] throws. *)
Inductive WriteFailure :=
| FailsAtOpen (e : JsError)
| FailsAfterOpen (e : JsError) (partial : string).

Record World := {
  clock : Z;                    (* the next reading of the wall clock, in ms *)
  ticks : list N;               (* by how much the clock advances after each reading *)
  data_file : FileNode;         (* DATA_FILE *)
  write_error : option WriteFailure; (* how writing DATA_FILE fails, if it does *)
  uploads : gset string         (* the names of the files in uploads/ *)
}.

(** ** Computations that change the world and may throw *)

Definition M (A : Type) : Type := World -> (JsError + A) * World.

Definition ret {A} (a : A) : M A := fun w => (inr a, w).

Definition bind {A B} (m : M A) (k : A -> M B) : M B :=
  fun w =>
    match m w with
    | (inl e, w') => (inl e, w')
    | (inr a, w') => k a w'
    end.

Definition throw {A} (e : JsError) : M A := fun w => (inl e, w).

(** [try { m } catch (error) { h error }] *)
Definition try_catch {A} (m : M A) (h : JsError -> M A) : M A :=
  fun w =>
    match m w with
    | (inl e, w') => h e w'
    | (inr a, w') => (inr a, w')
    end.

Notation "'let*' x ':=' m 'in' k" := (bind m (fun x => k))
  (at level 10, x name, m at level 100, k at level 200).
Notation "m ';;' k" := (bind m (fun _ => k))
  (at level 100, k at level 200, right associativity).

(** [Date.now()] and [new Date()]: read the clock; the clock then moves on. *)
Definition Date_now : M Z :=
  fun w =>
    (inr (clock w),
     match ticks w with
     | [] => w
     | d :: ds =>
         {| clock := clock w + Z.of_N d; ticks := ds;
            data_file := data_file w; write_error := write_error w;
            uploads := uploads w |}
     end).

Definition Date_new : M Date :=
  let* t := Date_now in ret {| getTime := t |}.

(** [fs.readFileSync(DATA_FILE, 'utf8')] *)
Definition fs_readFileSync_DATA_FILE : M Document :=
  fun w =>
    match data_file w with
    | NoEntry => (inl ENOENT, w)
    | Unreadable e => (inl e, w)
    | File text => (inr text, w)
    end.

(** [fs.writeFileSync(DATA_FILE, text)] *)
Definition fs_writeFileSync_DATA_FILE (text : Document) : M unit :=
  fun w =>
    match write_error w with
    | Some (FailsAtOpen e) => (inl e, w)
    | Some (FailsAfterOpen e partial) =>
        (inl e,
         {| clock := clock w; ticks := ticks w;
            data_file := File (Malformed partial);
            write_error := write_error w;
            uploads := uploads w |})
    | None =>
        (inr tt,
         {| clock := clock w; ticks := ticks w;
            data_file := File text; write_error := write_error w;
            uploads := uploads w |})
    end.

Definition JSON_parse (text : Document) : M (list Report) :=
  match text with
  | Malformed _ => throw SyntaxError
  | Collection l => ret l
  end.

Definition JSON_stringify (scammers : list Report) : Document :=
  Collection scammers.

(** [fs.existsSync] and [fs.unlinkSync] on [uploads/filename]. *)
Definition fs_existsSync_upload (filename : string) : M bool :=
  fun w => (inr (bool_decide (filename ∈ uploads w)), w).

Definition fs_unlinkSync_upload (filename : string) : M unit :=
  fun w =>
    if bool_decide (filename ∈ uploads w)
    then (inr tt,
          {| clock := clock w; ticks := ticks w;
             data_file := data_file w; write_error := write_error w;
             uploads := uploads w ∖ {[ filename ]} |})
    else (inl ENOENT, w).

(** [array.forEach(f)] *)
Fixpoint forEach {A} (f : A -> M unit) (l : list A) : M unit :=
  match l with
  | [] => ret tt
  | x :: l' => f x ;; forEach f l'
  end.

(** ** Helper functions of the server *)

Definition readScammers : M (list Report) :=
  try_catch
    (let* data := fs_readFileSync_DATA_FILE in
     JSON_parse data)
    (fun error => ret []).

Definition writeScammers (scammers : list Report) : M bool :=
  try_catch
    (fs_writeFileSync_DATA_FILE (JSON_stringify scammers) ;;
     ret true)
    (fun error => ret false).

(** ** Arrays *)

Section ArraySort.
Context {A : Type} (compareFn : A -> A -> Z).

(** [x] goes in front of the first element it does not have to follow. *)
Fixpoint sort_insert (x : A) (l : list A) : list A :=
  match l with
  | [] => [x]
  | y :: l' =>
      if compareFn x y <=? 0 then x :: y :: l' else y :: sort_insert x l'
  end.

(** [Array.prototype.sort(compareFn)]: a stable sort, as ECMAScript
    requires; elements that compare equal keep their order. *)
Fixpoint Array_sort (l : list A) : list A :=
  match l with
  | [] => []
  | x :: l' => sort_insert x (Array_sort l')
  end.
End ArraySort.

(** [array.findIndex(p)]: the first index whose element satisfies [p], or -1. *)
Fixpoint findIndex {A} (p : A -> bool) (l : list A) : Z :=
  match l with
  | [] => -1
  | x :: l' =>
      if p x then 0
      else let i := findIndex p l' in if i =? -1 then -1 else i + 1
  end.

(** [array.splice(start, 1)] for [0 <= start]: the array without that element. *)
Definition splice1 {A} (l : list A) (start : Z) : list A :=
  take (Z.to_nat start) l ++ drop (S (Z.to_nat start)) l.

(** [array[i]]; reading a property of the [undefined] it gives out of range
    throws a [TypeError]. *)
Definition element {A} (l : list A) (i : Z) : M A :=
  match l !! Z.to_nat i with
  | Some x => ret x
  | None => throw TypeError
  end.

(** [v.trim()] and [v.toLowerCase()] on a possibly absent text. *)
Definition method_trim (v : option string) : M string :=
  match v with
  | Some s => ret (trim s)
  | None => throw TypeError
  end.

Definition method_toLowerCase (v : option string) : M string :=
  match v with
  | Some s => ret (toLowerCase s)
  | None => throw TypeError
  end.

(** ** Requests and responses *)

Record UploadedFile := {
  fieldname : string;
  originalname : string;
  filename : string
}.

Module Body.
Record t := {
  name : option string;
  scamType : option string;
  phone : option string;
  website : option string;
  description : option string
}.
End Body.

Record PostRequest := {
  body : Body.t;
  files : option (list UploadedFile)
}.

Inductive Json :=
| JsonError (error : string)
| JsonReports (scammers : list Report)
| JsonCreated (success : bool) (message : string) (data : Report)
| JsonMessage (success : bool) (message : string).

Record Response := { status : Z; json : Json }.

Global Instance Json_eq_dec : EqDecision Json.
Proof. solve_decision. Defined.

Global Instance Response_eq_dec : EqDecision Response.
Proof. solve_decision. Defined.

Definition res_json (j : Json) : Response := {| status := 200; json := j |}.
Definition res_status_json (st : Z) (j : Json) : Response :=
  {| status := st; json := j |}.

(** ** Routes *)

(** [(a, b) => new Date(b.createdAt) - new Date(a.createdAt)] *)
Definition newestFirst (a b : Report) : Z :=
  getTime (Date_of (createdAt b)) - getTime (Date_of (createdAt a)).

(** [GET /api/scammers] *)
Definition get_api_scammers : M Response :=
  try_catch
    (let* scammers := readScammers in
     let scammers := Array_sort newestFirst scammers in
     ret (res_json (JsonReports scammers)))
    (fun error =>
       ret (res_status_json 500 (JsonError "Internal server error"))).

(** [POST /api/scammer] *)
Definition post_api_scammer (req : PostRequest) : M Response :=
  try_catch
    (let name := Body.name (body req) in
     let scamType := Body.scamType (body req) in
     let phone := Body.phone (body req) in
     let website := Body.website (body req) in
     let description := Body.description (body req) in
     if negb (truthy name) || negb (truthy scamType) then
       ret (res_status_json 400
              (JsonError "Nama dan jenis penipuan wajib diisi"))
     else
       let evidenceFiles :=
         match files req with
         | Some fs => map filename fs
         | None => []
         end in
       let* now := Date_now in
       let* name' := method_trim name in
       let* scamType' := method_trim scamType in
       let* phone' := (if truthy phone then method_trim phone else ret "") in
       let* website' := (if truthy website then method_trim website else ret "") in
       let* description' :=
         (if truthy description then method_trim description else ret "") in
       let* date := Date_new in
       let newScammer :=
         {| id := pretty now;
            name := name';
            scamType := scamType';
            phone := phone';
            website := website';
            description := description';
            evidence := evidenceFiles;
            createdAt := toISOString date |} in
       let* scammers := readScammers in
       let scammers := scammers ++ [newScammer] in
       let* saved := writeScammers scammers in
       if saved then
         ret (res_status_json 201
                (JsonCreated true "Scammer berhasil ditambahkan" newScammer))
       else
         ret (res_status_json 500 (JsonError "Gagal menyimpan data")))
    (fun error =>
       ret (res_status_json 500 (JsonError "Internal server error"))).

(** [DELETE /api/scammer/:id] *)
Definition delete_api_scammer (params_id : string) : M Response :=
  try_catch
    (let* scammers := readScammers in
     let scammerIndex :=
       findIndex (fun s => bool_decide (id s = params_id)) scammers in
     if scammerIndex =? -1 then
       ret (res_status_json 404 (JsonError "Scammer tidak ditemukan"))
     else
       let* scammer := element scammers scammerIndex in
       (if (0 <? length (evidence scammer))%nat then
          forEach
            (fun filename =>
               let* present := fs_existsSync_upload filename in
               if present then fs_unlinkSync_upload filename else ret tt)
            (evidence scammer)
        else ret tt) ;;
       let scammers := splice1 scammers scammerIndex in
       let* saved := writeScammers scammers in
       if saved then
         ret (res_json (JsonMessage true "Scammer berhasil dihapus"))
       else
         ret (res_status_json 500 (JsonError "Gagal menghapus data")))
    (fun error =>
       ret (res_status_json 500 (JsonError "Internal server error"))).

(** The test applied to each report by [GET /api/search]. *)
Definition search_filter (searchTerm : string) (scammer : Report) : bool :=
  includes (toLowerCase (name scammer)) searchTerm
  || includes (toLowerCase (scamType scammer)) searchTerm
  || (truthy (Some (phone scammer)) && includes (phone scammer) searchTerm)
  || (truthy (Some (description scammer))
      && includes (toLowerCase (description scammer)) searchTerm).

(** [GET /api/search] *)
Definition get_api_search (q : option string) : M Response :=
  try_catch
    (if negb (truthy q) then
       ret (res_json (JsonReports []))
     else
       let* scammers := readScammers in
       let* searchTerm := method_toLowerCase q in
       let filtered := List.filter (search_filter searchTerm) scammers in
       let filtered := Array_sort newestFirst filtered in
       ret (res_json (JsonReports filtered)))
    (fun error =>
       ret (res_status_json 500 (JsonError "Internal server error"))).

(** The server starts with the collection document holding [[]] when no
    document exists. *)
Definition boot (t : Z) (ds : list N) (files : gset string) : World :=
  {| clock := t; ticks := ds; data_file := File (JSON_stringify []);
     write_error := None; uploads := files |}.

(** ** Upload configuration and error handling *)

Module Upload.
(** What multer tells the storage and the filter about an incoming file. *)
Record t := {
  fieldname : string;
  originalname : string;
  mimetype : string
}.
End Upload.

(** An error handed to the error-handling middleware: a
    [multer.MulterError] with its code, or another [Error]; both carry a
    message. *)
Inductive ExpressError :=
| MulterError (code : string) (message : string)
| OtherError (message : string).

Definition error_message (error : ExpressError) : string :=
  match error with
  | MulterError _ message => message
  | OtherError message => message
  end.

Section DiskStorage.
(** [path.extname] *)
Variable path_extname : string -> string.

(** The [filename] function of [multer.diskStorage].  [rounded] is the value
    of [Math.round(Math.random() * 1E9)], a whole number from 0 to 10^9. *)
Definition storage_filename (file : Upload.t) (rounded : Z) : M string :=
  let* now := Date_now in
  let uniqueSuffix := (pretty now +:+ "-") +:+ pretty rounded in
  ret (((Upload.fieldname file +:+ "-") +:+ uniqueSuffix)
       +:+ path_extname (Upload.originalname file)).
End DiskStorage.

(** The [fileFilter] of the upload: the error and the verdict it passes to
    its callback. *)
Definition fileFilter (file : Upload.t) : option ExpressError * bool :=
  if startsWith (Upload.mimetype file) "image/" then (None, true)
  else (Some (OtherError "Only image files are allowed!"), false).

(** The error-handling middleware. *)
Definition error_middleware (error : ExpressError) : Response :=
  let answered :=
    match error with
    | MulterError code _ =>
        if bool_decide (code = "LIMIT_FILE_SIZE") then
          Some (res_status_json 400
                  (JsonError "File terlalu besar. Maksimal 5MB per file."))
        else if bool_decide (code = "LIMIT_FILE_COUNT") then
          Some (res_status_json 400
                  (JsonError "Terlalu banyak file. Maksimal 6 file."))
        else None
    | OtherError _ => None
    end in
  match answered with
  | Some res => res
  | None =>
      if bool_decide (error_message error = "Only image files are allowed!")
      then res_status_json 400 (JsonError "Hanya file gambar yang diizinkan!")
      else res_status_json 500 (JsonError "Internal server error")
  end.

(** ** Start-up *)

(** [fs.existsSync(DATA_FILE)]; an entry that cannot be read is there. *)
Definition fs_existsSync_DATA_FILE : M bool :=
  fun w =>
    (inr match data_file w with
         | NoEntry => false
         | Unreadable _ => true
         | File _ => true
         end, w).

(** The initialization of the data file when the server starts; nothing
    catches what it throws. *)
Definition initialize_data_file : M unit :=
  let* present := fs_existsSync_DATA_FILE in
  if negb present then fs_writeFileSync_DATA_FILE (JSON_stringify [])
  else ret tt.

(** * Notions used in the statements *)

(** ** Observations of the world *)

(** The collection as the read helper sees it. *)
Definition stored (w : World) : list Report :=
  match data_file w with
  | File (Collection l) => l
  | _ => []
  end.

(** The world after the collection document has been written. *)
Definition persist (l : list Report) (w : World) : World :=
  {| clock := clock w; ticks := ticks w;
     data_file := File (JSON_stringify l); write_error := write_error w;
     uploads := uploads w |}.

(** The world after a write of the collection document has failed. *)
Definition after_failed_write (f : WriteFailure) (w : World) : World :=
  match f with
  | FailsAtOpen _ => w
  | FailsAfterOpen _ partial =>
      {| clock := clock w; ticks := ticks w;
         data_file := File (Malformed partial);
         write_error := write_error w;
         uploads := uploads w |}
  end.

(** The world after one reading of the clock. *)
Definition tick (w : World) : World := snd (Date_now w).

(** The world with some files of [uploads/] removed. *)
Definition without_uploads (names : list string) (w : World) : World :=
  {| clock := clock w; ticks := ticks w;
     data_file := data_file w; write_error := write_error w;
     uploads := uploads w ∖ list_to_set names |}.

(** What [readScammers] tries: read the document, then parse it. *)
Definition read_attempt : M (list Report) :=
  let* data := fs_readFileSync_DATA_FILE in
  JSON_parse data.

(** Reading the document or parsing it throws. *)
Definition read_fails (w : World) : Prop :=
  exists e w', read_attempt w = (inl e, w').

(** The document is missing, is the empty text, or holds the empty array. *)
Definition store_missing_or_empty (w : World) : Prop :=
  data_file w = NoEntry \/
  data_file w = File (Malformed "") \/
  data_file w = File (JSON_stringify []).

Definition unlink_if_present (filename : string) : M unit :=
  let* present := fs_existsSync_upload filename in
  if present then fs_unlinkSync_upload filename else ret tt.

(** The Creates of a list of requests, one after the other. *)
Fixpoint post_all (reqs : list PostRequest) : M unit :=
  match reqs with
  | [] => ret tt
  | req :: reqs' => post_api_scammer req ;; post_all reqs'
  end.

(** ** Reports and requests *)

Definition created (r : Report) : Z := getTime (Date_of (createdAt r)).

(** [a] may stand before [b] in a list that has the newest report first. *)
Definition not_older (a b : Report) : Prop := created b <= created a.

Definition newest_first (l : list Report) : Prop := StronglySorted not_older l.

(** The text stored for a field of the request body. *)
Definition trimmed (v : option string) : string :=
  trim (default "" v).

Definition evidence_of (req : PostRequest) : list string :=
  match files req with
  | Some fs => map filename fs
  | None => []
  end.

(** The report built for a request when the clock reads [t_id] and then
    [t_created]. *)
Definition new_report (req : PostRequest) (t_id t_created : Z) : Report :=
  {| id := pretty t_id;
     name := trimmed (Body.name (body req));
     scamType := trimmed (Body.scamType (body req));
     phone := trimmed (Body.phone (body req));
     website := trimmed (Body.website (body req));
     description := trimmed (Body.description (body req));
     evidence := evidence_of req;
     createdAt := Iso t_created |}.

(** Both required fields of the request are present and not empty. *)
Definition required_present (req : PostRequest) : Prop :=
  truthy (Body.name (body req)) = true /\
  truthy (Body.scamType (body req)) = true.

(** The field is absent, or empty once trimmed. *)
Definition blank (v : option string) : Prop := trimmed v = "".

(** The report shows the fields of the request, trimmed, its evidence, a
    non-empty id, and a creation time not before [t0]. *)
Definition echoes (req : PostRequest) (t0 : Z) (x : Report) : bool :=
  bool_decide (name x = trimmed (Body.name (body req)))
  && bool_decide (scamType x = trimmed (Body.scamType (body req)))
  && bool_decide (phone x = trimmed (Body.phone (body req)))
  && bool_decide (website x = trimmed (Body.website (body req)))
  && bool_decide (description x = trimmed (Body.description (body req)))
  && bool_decide (evidence x = evidence_of req)
  && negb (bool_decide (id x = ""))
  && (t0 <=? created x).

Definition with_website (site : string) (r : Report) : Report :=
  {| id := id r; name := name r; scamType := scamType r; phone := phone r;
     website := site; description := description r;
     evidence := evidence r; createdAt := createdAt r |}.

(** ** Matching a query *)

(** [q] occurs in [field] when the case of letters is ignored. *)
Definition ci_substring_of (q field : string) : Prop :=
  substring_of (toLowerCase q) (toLowerCase field).

(** The match of [GET /api/search], field by field: the query in lower case
    occurs in the name, the scam type or the description in lower case, or
    in the phone as it is stored. *)
Definition search_match (q : string) (r : Report) : Prop :=
  ci_substring_of q (name r) \/
  ci_substring_of q (scamType r) \/
  ci_substring_of q (description r) \/
  substring_of (toLowerCase q) (phone r).

(** The match as the specification words it: the phone is compared with the
    query as given. *)
Definition search_match_as_specified (q : string) (r : Report) : Prop :=
  ci_substring_of q (name r) \/
  ci_substring_of q (scamType r) \/
  ci_substring_of q (description r) \/
  substring_of q (phone r).

(** ** Statements of the specification that the code does not satisfy *)

(** The claim on the website as the specification states it, for one
    query, one world and one report: a stored report in whose website the
    query occurs, and which does not match as the specification words the
    match, is not in the answer. *)
Definition C10_as_stated (q : string) (w : World) (r : Report) : Prop :=
  q <> "" ->
  In r (stored w) ->
  substring_of q (website r) ->
  ~ search_match_as_specified q r ->
  exists l w',
    get_api_search (Some q) w = (inr (res_json (JsonReports l)), w') /\
    ~ In r l.

(** The claim as the specification states it, for one request and one
    world: after a Create that is carried out, the listing holds exactly one
    report that shows the request. *)
Definition C4_as_stated (req : PostRequest) (w : World) : Prop :=
  required_present req -> write_error w = None ->
  exists r w' l w'',
    post_api_scammer req w =
    (inr (res_status_json 201
            (JsonCreated true "Scammer berhasil ditambahkan" r)), w') /\
    get_api_scammers w' = (inr (res_json (JsonReports l)), w'') /\
    length (List.filter (echoes req (clock w)) l) = 1%nat.

(** ** Sample requests, reports and worlds *)

Definition example_report (i n : string) (t : Z) : Report :=
  {| id := i; name := n; scamType := "phishing"; phone := "";
     website := ""; description := ""; evidence := [];
     createdAt := Iso t |}.

Definition example_request (n s : option string) : PostRequest :=
  {| body := {| Body.name := n; Body.scamType := s;
                Body.phone := Some " +1-555-0199 ";
                Body.website := None; Body.description := None |};
     files := None |}.

Definition report_request (n s : string) (names : list string) : PostRequest :=
  {| body := {| Body.name := Some n; Body.scamType := Some s;
                Body.phone := Some " +1-555-0199 ";
                Body.website := None;
                Body.description := Some "asks for gift cards" |};
     files :=
       Some (map (fun f => {| fieldname := "evidence";
                              originalname := "photo.png";
                              filename := f |}) names) |}.

Definition alice_request : PostRequest :=
  report_request " Alice Wu " "phishing"
    ["evidence-1-1.png"; "evidence-1-2.png"].

Definition bob_request : PostRequest :=
  report_request "Bob" "fake shop"
    ["evidence-2-1.png"; "evidence-2-2.png"].

Definition carol_request : PostRequest :=
  report_request "Carol" "lottery" [].

Definition world_without_document : World :=
  {| clock := 1700000000000; ticks := []; data_file := NoEntry;
     write_error := None; uploads := ∅ |}.

Definition world_with_corrupt_document : World :=
  {| clock := 1700000000000; ticks := [1; 2]%N;
     data_file := File (Malformed "[{");
     write_error := None; uploads := ∅ |}.

(** A freshly started server whose clock stays on one millisecond. *)
Definition frozen_world : World :=
  boot 1700000000000 [0; 0; 0; 0; 0; 0]%N
    {[ "evidence-1-1.png"; "evidence-1-2.png";
       "evidence-2-1.png"; "evidence-2-2.png" ]}.

Definition report_with_extension : Report :=
  {| id := "1700000000000"; name := "Bob"; scamType := "phishing";
     phone := "555 EXT 12"; website := ""; description := "";
     evidence := []; createdAt := Iso 1700000000000 |}.

Definition world_with_extension : World :=
  persist [report_with_extension] (boot 1700000000001 [] ∅).

Definition report_with_lowercase_phone : Report :=
  {| id := "1700000000000"; name := "Bob"; scamType := "phishing";
     phone := "ext 5"; website := "EXT.example"; description := "";
     evidence := []; createdAt := Iso 1700000000000 |}.

Definition world_with_lowercase_phone : World :=
  persist [report_with_lowercase_phone] (boot 1700000000001 [] ∅).

Definition report_with_website : Report :=
  {| id := "1700000000000"; name := "Bob"; scamType := "phishing";
     phone := "+1-555-0199"; website := "scam-shop.example";
     description := "sells fake tickets";
     evidence := []; createdAt := Iso 1700000000000 |}.

(** ** Generated file names *)

Definition is_digit (c : ascii) : bool :=
  let n := code c in (48 <=? n)%N && (n <=? 57)%N.

Fixpoint digits_only (s : string) : bool :=
  match s with
  | EmptyString => true
  | String c s' => is_digit c && digits_only s'
  end.

(** The text is empty or begins with something else than a digit, as an
    extension does. *)
Definition no_leading_digit (s : string) : bool :=
  match s with
  | EmptyString => true
  | String c _ => negb (is_digit c)
  end.

(** ** More sample worlds *)

Definition world_with_two_reports : World :=
  persist [example_report "1000" "Alice Wu" 1000;
           example_report "2000" "Bob" 2000]
    (boot 3000 [1; 1; 1; 1]%N {[ "evidence-1.png" ]}).

Definition report_with_evidence : Report :=
  {| id := "2000"; name := "Bob"; scamType := "fake shop"; phone := "";
     website := ""; description := "";
     evidence := ["evidence-1.png"; "evidence-gone.png"];
     createdAt := Iso 2000 |}.

(** A world whose disk is full: a write empties the document and stops
    after the first character. *)
Definition full_disk_world : World :=
  {| clock := 3000; ticks := [1; 1]%N;
     data_file := File (JSON_stringify [report_with_website]);
     write_error := Some (FailsAfterOpen (SystemError "ENOSPC") "[");
     uploads := {[ "evidence-1.png" ]} |}.

Definition world_with_evidence (e : option WriteFailure) : World :=
  {| clock := 3000; ticks := [];
     data_file :=
       File (JSON_stringify [example_report "1000" "Alice Wu" 1000;
                             report_with_evidence;
                             example_report "2000" "Carol" 2500]);
     write_error := e;
     uploads := {[ "evidence-1.png"; "evidence-9.png" ]} |}.

(** The text of a name from its last dot on: what [path.extname] gives for
    a plain file name such as [photo.png]; it serves in the examples. *)
Fixpoint from_last_dot (s : string) : string :=
  match s with
  | EmptyString => EmptyString
  | String c s' =>
      match from_last_dot s' with
      | EmptyString => if bool_decide (c = "."%char) then s else EmptyString
      | ext => ext
      end
  end.

(** * Properties *)

(** ** Strings *)

Lemma startsWith_spec (s t : string) :
  startsWith s t = true <-> exists post, s = t +:+ post.
Proof.
  revert s; induction t as [|b t IH]; intros s; simpl.
  - split; [intros _; exists s; reflexivity | intros _; destruct s; reflexivity].
  - destruct s as [|a s]; simpl.
    + split; [discriminate | intros [post H]; discriminate].
    + rewrite andb_true_iff, bool_decide_eq_true, IH. split.
      * intros [-> [post ->]]. exists post. reflexivity.
      * intros [post H]. injection H as -> ->. split; [reflexivity | eauto].
Qed.

Lemma includes_spec (s t : string) :
  includes s t = true <-> substring_of t s.
Proof.
  unfold substring_of. induction s as [|a s IH].
  - cbn [includes]. rewrite orb_false_r, startsWith_spec. split.
    + intros [post H]. exists "", post. exact H.
    + intros [pre [post H]]. destruct pre; simpl in H; [eauto | discriminate].
  - cbn [includes]. rewrite orb_true_iff, IH, startsWith_spec. split.
    + intros [[post H] | [pre [post H]]].
      * exists "", post. exact H.
      * exists (String a pre), post. simpl. rewrite H. reflexivity.
    + intros [pre [post H]]. destruct pre as [|c pre]; simpl in H.
      * left. eauto.
      * right. injection H as _ ->. eauto.
Qed.

Lemma includes_empty (t : string) : t <> "" -> includes "" t = false.
Proof. destruct t; [congruence | reflexivity]. Qed.

Lemma toLowerCase_nonempty (s : string) : s <> "" -> toLowerCase s <> "".
Proof. destruct s; [congruence | discriminate]. Qed.

Lemma truthy_Some (s : string) : truthy (Some s) = true <-> s <> "".
Proof.
  unfold truthy. rewrite negb_true_iff, bool_decide_eq_false. reflexivity.
Qed.

(** ** Sorting *)

Section ArraySortFacts.
Context {A : Type} (compareFn : A -> A -> Z).

Lemma sort_insert_perm (x : A) (l : list A) :
  Permutation (x :: l) (sort_insert compareFn x l).
Proof.
  induction l as [|y l IH]; simpl; [reflexivity |].
  destruct (compareFn x y <=? 0); [reflexivity |].
  rewrite perm_swap. apply perm_skip. exact IH.
Qed.

Lemma Array_sort_perm (l : list A) :
  Permutation l (Array_sort compareFn l).
Proof.
  induction l as [|x l IH]; simpl; [reflexivity |].
  rewrite <- sort_insert_perm. apply perm_skip. exact IH.
Qed.

Lemma Array_sort_In (l : list A) (x : A) :
  In x (Array_sort compareFn l) <-> In x l.
Proof.
  split; apply Permutation_in;
    [symmetry |]; apply Array_sort_perm.
Qed.

Lemma Array_sort_length (l : list A) :
  length (Array_sort compareFn l) = length l.
Proof. symmetry. apply Permutation_length, Array_sort_perm. Qed.
End ArraySortFacts.

Lemma sort_insert_newest_first (x : Report) (l : list Report) :
  newest_first l -> newest_first (sort_insert newestFirst x l).
Proof.
  unfold newest_first. induction 1 as [|y l Hl IH Hy]; simpl.
  - repeat constructor.
  - destruct (Z.leb_spec (newestFirst x y) 0) as [Hle | Hgt].
    + assert (Hxy : not_older x y) by (unfold not_older, newestFirst, created in *; lia).
      constructor; [constructor; assumption |].
      constructor; [exact Hxy |].
      eapply List.Forall_impl; [| exact Hy].
      unfold not_older in *. intros z Hz. lia.
    + constructor; [exact IH |].
      apply (proj2 (List.Forall_forall _ _)). intros z Hz.
      apply (Permutation_in _ (Permutation_sym (sort_insert_perm newestFirst x l))) in Hz.
      destruct Hz as [<- | Hz].
      * unfold not_older, newestFirst, created in *. lia.
      * exact (proj1 (List.Forall_forall _ _) Hy z Hz).
Qed.

Lemma Array_sort_newest_first (l : list Report) :
  newest_first (Array_sort newestFirst l).
Proof.
  induction l as [|x l IH]; simpl.
  - constructor.
  - apply sort_insert_newest_first, IH.
Qed.

(** The sort is stable: reports created at the same instant keep the order
    they had. *)
Lemma sort_insert_ties (t : Z) (x : Report) (l : list Report) :
  List.filter (fun y => created y =? t) (sort_insert newestFirst x l)
  = List.filter (fun y => created y =? t) (x :: l).
Proof.
  induction l as [|y l IH]; [reflexivity |].
  cbn [sort_insert].
  destruct (Z.leb_spec (newestFirst x y) 0) as [_ | Hgt]; [reflexivity |].
  cbn [List.filter] in *. rewrite IH.
  unfold newestFirst in Hgt. fold (created x) (created y) in Hgt.
  destruct (Z.eqb_spec (created x) t), (Z.eqb_spec (created y) t);
    try reflexivity.
  lia.
Qed.

Lemma Array_sort_ties_keep_order (t : Z) (l : list Report) :
  List.filter (fun y => created y =? t) (Array_sort newestFirst l)
  = List.filter (fun y => created y =? t) l.
Proof.
  induction l as [|x l IH]; [reflexivity |].
  cbn [Array_sort]. rewrite sort_insert_ties.
  cbn [List.filter]. rewrite IH. reflexivity.
Qed.

Lemma newest_first_suffix (l1 l2 : list Report) :
  newest_first (l1 ++ l2) -> newest_first l2.
Proof.
  unfold newest_first. induction l1 as [|x l1 IH]; simpl; [tauto |].
  intros H. apply StronglySorted_inv in H as [H _]. exact (IH H).
Qed.

(** In a list that has the newest first, a strictly newer report stands
    before an older one. *)
Lemma newest_first_before (l : list Report) (a b : Report) :
  newest_first l -> In a l -> In b l -> created b < created a ->
  exists l1 l2 l3, l = l1 ++ a :: l2 ++ b :: l3.
Proof.
  intros Hs Ha Hb Hlt.
  apply in_split in Ha as (l1 & rest & ->).
  assert (Hb' : In b rest).
  { apply in_app_or in Hb as [Hb | [-> | Hb]]; [| lia | exact Hb].
    exfalso. apply in_split in Hb as (p & q & ->).
    rewrite <- app_assoc in Hs. apply newest_first_suffix in Hs.
    apply StronglySorted_inv in Hs as [_ Hall].
    rewrite List.Forall_forall in Hall.
    assert (not_older b a) by (apply Hall, in_or_app; right; left; reflexivity).
    unfold not_older in *. lia. }
  apply in_split in Hb' as (l2 & l3 & ->).
  exists l1, l2, l3. reflexivity.
Qed.

(** ** What the handlers do to the world *)

Lemma Date_now_run (w : World) : Date_now w = (inr (clock w), tick w).
Proof. reflexivity. Qed.

Lemma tick_data_file (w : World) : data_file (tick w) = data_file w.
Proof. unfold tick, Date_now. simpl. destruct (ticks w); reflexivity. Qed.

Lemma tick_write_error (w : World) : write_error (tick w) = write_error w.
Proof. unfold tick, Date_now. simpl. destruct (ticks w); reflexivity. Qed.

Lemma tick_uploads (w : World) : uploads (tick w) = uploads w.
Proof. unfold tick, Date_now. simpl. destruct (ticks w); reflexivity. Qed.

Lemma tick_clock_le (w : World) : clock w <= clock (tick w).
Proof. unfold tick, Date_now. simpl. destruct (ticks w); simpl; lia. Qed.

Lemma tick_stored (w : World) : stored (tick w) = stored w.
Proof. unfold stored. rewrite tick_data_file. reflexivity. Qed.

Lemma stored_persist (l : list Report) (w : World) : stored (persist l w) = l.
Proof. reflexivity. Qed.

Lemma readScammers_run (w : World) : readScammers w = (inr (stored w), w).
Proof.
  unfold readScammers, try_catch, bind, fs_readFileSync_DATA_FILE, stored.
  destruct (data_file w) as [| e | [raw | l]]; reflexivity.
Qed.

Lemma writeScammers_saved (l : list Report) (w : World) :
  write_error w = None -> writeScammers l w = (inr true, persist l w).
Proof.
  intros H.
  unfold writeScammers, try_catch, bind, fs_writeFileSync_DATA_FILE, persist.
  rewrite H. reflexivity.
Qed.

Lemma writeScammers_failed (l : list Report) (w : World) (f : WriteFailure) :
  write_error w = Some f ->
  writeScammers l w = (inr false, after_failed_write f w).
Proof.
  intros H.
  unfold writeScammers, try_catch, bind, fs_writeFileSync_DATA_FILE,
    after_failed_write.
  rewrite H. destruct f; reflexivity.
Qed.

Lemma get_api_scammers_run (w : World) :
  get_api_scammers w =
  (inr (res_json (JsonReports (Array_sort newestFirst (stored w)))), w).
Proof.
  unfold get_api_scammers, try_catch, bind. rewrite readScammers_run.
  reflexivity.
Qed.

Lemma get_api_search_absent (q : option string) (w : World) :
  truthy q = false ->
  get_api_search q w = (inr (res_json (JsonReports [])), w).
Proof.
  intros H. unfold get_api_search, try_catch. rewrite H. reflexivity.
Qed.

Lemma get_api_search_run (s : string) (w : World) :
  s <> "" ->
  get_api_search (Some s) w =
  (inr (res_json (JsonReports
          (Array_sort newestFirst
             (List.filter (search_filter (toLowerCase s)) (stored w))))), w).
Proof.
  intros H. apply truthy_Some in H.
  unfold get_api_search, try_catch, bind. rewrite H. cbn [negb].
  rewrite readScammers_run. reflexivity.
Qed.

Lemma optional_trim (v : option string) (w : World) :
  (if truthy v then method_trim v else ret "") w = (inr (trimmed v), w).
Proof.
  destruct v as [s|]; [| reflexivity].
  unfold truthy, trimmed. case_bool_decide as Hs; simpl; [| reflexivity].
  subst s. reflexivity.
Qed.

Lemma required_trim (v : option string) (w : World) :
  truthy v = true -> method_trim v w = (inr (trimmed v), w).
Proof. destruct v; [reflexivity | discriminate]. Qed.

(** One step of a computation whose first part is known. *)
Lemma bind_run {A B} (m : M A) (k : A -> M B) (w w' : World) (a : A) :
  m w = (inr a, w') -> bind m k w = k a w'.
Proof. intros H. unfold bind. rewrite H. reflexivity. Qed.

Ltac run_step lem := erewrite bind_run by (apply lem; assumption).

Lemma Date_new_run (w : World) :
  Date_new w = (inr {| getTime := clock w |}, tick w).
Proof. reflexivity. Qed.

(** A request with both required fields: the report is built from two
    readings of the clock and appended to what was read; the answer depends
    on whether the document could be written. *)
Lemma post_api_scammer_valid (req : PostRequest) (w : World) :
  required_present req ->
  let r := new_report req (clock w) (clock (tick w)) in
  post_api_scammer req w =
  match writeScammers (stored w ++ [r]) (tick (tick w)) with
  | (inr true, w') =>
      (inr (res_status_json 201
              (JsonCreated true "Scammer berhasil ditambahkan" r)), w')
  | (inr false, w') =>
      (inr (res_status_json 500 (JsonError "Gagal menyimpan data")), w')
  | (inl _, w') =>
      (inr (res_status_json 500 (JsonError "Internal server error")), w')
  end.
Proof.
  intros [Hn Hs] r. unfold post_api_scammer, try_catch.
  rewrite Hn, Hs. cbn [negb orb].
  run_step Date_now_run.
  do 2 run_step required_trim.
  do 3 run_step optional_trim.
  run_step Date_new_run.
  run_step readScammers_run.
  rewrite !tick_stored. unfold bind.
  match goal with
  | |- context [writeScammers (stored w ++ [?x]) _] => change x with r
  end.
  destruct (writeScammers (stored w ++ [r]) (tick (tick w))) as [[e | []] w'];
    reflexivity.
Qed.

(** On a store that can be written the report is appended and the document
    written. *)
Lemma post_api_scammer_created (req : PostRequest) (w : World) :
  required_present req ->
  write_error w = None ->
  let r := new_report req (clock w) (clock (tick w)) in
  post_api_scammer req w =
  (inr (res_status_json 201
          (JsonCreated true "Scammer berhasil ditambahkan" r)),
   persist (stored w ++ [r]) (tick (tick w))).
Proof.
  intros Hreq Hw r. rewrite (post_api_scammer_valid req w Hreq).
  rewrite writeScammers_saved by (rewrite !tick_write_error; exact Hw).
  reflexivity.
Qed.

Lemma post_api_scammer_rejected (req : PostRequest) (w : World) :
  truthy (Body.name (body req)) = false \/
  truthy (Body.scamType (body req)) = false ->
  post_api_scammer req w =
  (inr (res_status_json 400 (JsonError "Nama dan jenis penipuan wajib diisi")),
   w).
Proof.
  intros H. unfold post_api_scammer, try_catch.
  destruct H as [-> | ->]; [reflexivity |].
  rewrite orb_true_r. reflexivity.
Qed.

(** When the write of the document fails the answer is 500. *)
Lemma post_api_scammer_not_saved (req : PostRequest) (w : World)
    (f : WriteFailure) :
  required_present req ->
  write_error w = Some f ->
  post_api_scammer req w =
  (inr (res_status_json 500 (JsonError "Gagal menyimpan data")),
   after_failed_write f (tick (tick w))).
Proof.
  intros Hreq Hw. rewrite (post_api_scammer_valid req w Hreq).
  rewrite (writeScammers_failed _ _ f) by (rewrite !tick_write_error; exact Hw).
  reflexivity.
Qed.

(** *** [findIndex] and [splice] *)

Lemma findIndex_ge {A} (p : A -> bool) (l : list A) : -1 <= findIndex p l.
Proof.
  induction l as [|x l IH]; simpl; [lia |].
  destruct (p x); [lia |].
  destruct (Z.eqb_spec (findIndex p l) (-1)); lia.
Qed.

Lemma findIndex_none {A} (p : A -> bool) (l : list A) :
  findIndex p l = -1 <-> (forall x, In x l -> p x = false).
Proof.
  induction l as [|x l IH]; simpl.
  - split; [intros _ x [] | reflexivity].
  - destruct (p x) eqn:Hx.
    + split; [discriminate |]. intros H. rewrite (H x) in Hx by (left; reflexivity).
      discriminate.
    + pose proof (findIndex_ge p l) as Hge.
      destruct (Z.eqb_spec (findIndex p l) (-1)) as [He | Hne].
      * split; [| reflexivity]. intros _ y [<- | Hy]; [exact Hx |].
        apply (proj1 IH He y Hy).
      * split; [lia |]. intros H. exfalso. apply Hne, IH.
        intros y Hy. apply H. right. exact Hy.
Qed.

Lemma findIndex_first {A} (p : A -> bool) (pre post : list A) (x : A) :
  (forall y, In y pre -> p y = false) -> p x = true ->
  findIndex p (pre ++ x :: post) = Z.of_nat (length pre).
Proof.
  intros Hpre Hx. induction pre as [|y pre IH]; simpl.
  - rewrite Hx. reflexivity.
  - rewrite (Hpre y) by (left; reflexivity).
    rewrite IH by (intros z Hz; apply Hpre; right; exact Hz).
    destruct (Z.eqb_spec (Z.of_nat (length pre)) (-1)); lia.
Qed.

Lemma findIndex_found {A} (p : A -> bool) (l : list A) :
  findIndex p l <> -1 ->
  exists pre x post,
    l = pre ++ x :: post /\ p x = true /\ (forall y, In y pre -> p y = false).
Proof.
  induction l as [|x l IH]; simpl; [congruence |].
  destruct (p x) eqn:Hx.
  - intros _. exists [], x, l. repeat split; [exact Hx | intros y []].
  - destruct (Z.eqb_spec (findIndex p l) (-1)) as [He | Hne]; [congruence |].
    intros _. destruct (IH Hne) as (pre & y & post & -> & Hy & Hpre).
    exists (x :: pre), y, post. repeat split; [exact Hy |].
    intros z [<- | Hz]; [exact Hx | exact (Hpre z Hz)].
Qed.

Lemma element_middle {A} (pre post : list A) (x : A) (w : World) :
  element (pre ++ x :: post) (Z.of_nat (length pre)) w = (inr x, w).
Proof.
  unfold element. rewrite Nat2Z.id.
  rewrite (list_lookup_middle pre post x (length pre) eq_refl). reflexivity.
Qed.

Lemma splice1_middle {A} (pre post : list A) (x : A) :
  splice1 (pre ++ x :: post) (Z.of_nat (length pre)) = pre ++ post.
Proof.
  unfold splice1. rewrite Nat2Z.id.
  induction pre as [|y pre IH]; simpl.
  - rewrite drop_0. reflexivity.
  - f_equal. exact IH.
Qed.

(** *** Removing the evidence files *)

Lemma World_eq (w1 w2 : World) :
  clock w1 = clock w2 -> ticks w1 = ticks w2 ->
  data_file w1 = data_file w2 -> write_error w1 = write_error w2 ->
  uploads w1 = uploads w2 -> w1 = w2.
Proof. destruct w1, w2; simpl; intros; subst; reflexivity. Qed.

Lemma unlink_all_run (names : list string) (w : World) :
  forEach unlink_if_present names w = (inr tt, without_uploads names w).
Proof.
  revert w; induction names as [|x names IH]; intros w.
  - simpl. unfold ret. f_equal. apply World_eq; try reflexivity.
    simpl. set_solver.
  - cbn [forEach]. unfold bind at 1. unfold unlink_if_present at 1.
    unfold bind at 1, fs_existsSync_upload at 1.
    case_bool_decide as Hx.
    + unfold fs_unlinkSync_upload. rewrite bool_decide_eq_true_2 by exact Hx.
      rewrite IH. f_equal. apply World_eq; try reflexivity.
      simpl. set_solver.
    + unfold ret at 1. rewrite IH. f_equal. apply World_eq; try reflexivity.
      simpl. set_solver.
Qed.

Lemma delete_files_run (names : list string) (w : World) :
  (if (0 <? length names)%nat
   then forEach
          (fun filename =>
             let* present := fs_existsSync_upload filename in
             if present then fs_unlinkSync_upload filename else ret tt)
          names
   else ret tt) w = (inr tt, without_uploads names w).
Proof.
  destruct names as [|x names].
  - exact (unlink_all_run [] w).
  - exact (unlink_all_run (x :: names) w).
Qed.

(** *** [DELETE /api/scammer/:id] *)

Lemma delete_api_scammer_missing (i : string) (w : World) :
  (forall r, In r (stored w) -> id r <> i) ->
  delete_api_scammer i w =
  (inr (res_status_json 404 (JsonError "Scammer tidak ditemukan")), w).
Proof.
  intros H. unfold delete_api_scammer, try_catch. unfold bind at 1.
  rewrite readScammers_run.
  replace (findIndex _ (stored w)) with (-1); [reflexivity |].
  symmetry. apply findIndex_none. intros r Hr.
  apply bool_decide_eq_false. exact (H r Hr).
Qed.

Lemma delete_api_scammer_found (i : string) (w : World)
    (pre post : list Report) (r : Report) :
  stored w = pre ++ r :: post ->
  (forall y, In y pre -> id y <> i) ->
  id r = i ->
  write_error w = None ->
  delete_api_scammer i w =
  (inr (res_json (JsonMessage true "Scammer berhasil dihapus")),
   persist (pre ++ post) (without_uploads (evidence r) w)).
Proof.
  intros Hst Hpre Hr Hw. unfold delete_api_scammer, try_catch.
  unfold bind at 1. rewrite readScammers_run, Hst.
  rewrite (findIndex_first _ pre post r).
  2:{ intros y Hy. apply bool_decide_eq_false. exact (Hpre y Hy). }
  2:{ apply bool_decide_eq_true. exact Hr. }
  destruct (Z.eqb_spec (Z.of_nat (length pre)) (-1)) as [He | _]; [lia |].
  unfold bind at 1. rewrite element_middle.
  unfold bind at 1. rewrite delete_files_run.
  rewrite splice1_middle.
  unfold bind at 1. rewrite writeScammers_saved by exact Hw.
  reflexivity.
Qed.

(** *** The text of a number *)

Lemma pretty_N_go_nonempty (x : N) (s : string) :
  s <> "" -> pretty_N_go x s <> "".
Proof.
  revert s. induction (N.lt_wf_0 x) as [x _ IH]. intros s Hs.
  destruct (N.eq_dec x 0%N) as [-> | Hx].
  - rewrite pretty_N_go_0. exact Hs.
  - rewrite pretty_N_go_step by lia. apply IH; [| discriminate].
    apply N.div_lt; lia.
Qed.

Lemma pretty_Z_nonempty (t : Z) : pretty t <> "".
Proof.
  destruct t as [|p|p]; unfold pretty, pretty_Z; [discriminate | | discriminate].
  unfold pretty, pretty_positive, pretty, pretty_N.
  destruct (decide (N.pos p = 0%N)); [discriminate |].
  rewrite pretty_N_go_step by lia. apply pretty_N_go_nonempty. discriminate.
Qed.

(** ** Listing *)

Lemma newest_first_after (l1 rest : list Report) (a b : Report) :
  newest_first (l1 ++ a :: rest) -> In b (l1 ++ a :: rest) ->
  created b < created a -> In b rest.
Proof.
  intros Hs Hb Hlt.
  destruct (newest_first_before _ a b Hs) as (p & q & t & E);
    [apply in_or_app; right; left; reflexivity | exact Hb | exact Hlt |].
  apply in_app_or in Hb as [Hb | [-> | Hb]]; [| lia | exact Hb].
  exfalso. apply in_split in Hb as (p' & q' & ->).
  rewrite <- app_assoc in Hs. apply newest_first_suffix in Hs.
  apply StronglySorted_inv in Hs as [_ Hall].
  rewrite List.Forall_forall in Hall.
  assert (not_older b a) by (apply Hall, in_or_app; right; left; reflexivity).
  unfold not_older in *. lia.
Qed.

Lemma newest_first_three (l : list Report) (r1 r2 r3 : Report) :
  newest_first l -> In r1 l -> In r2 l -> In r3 l ->
  created r1 < created r2 -> created r2 < created r3 ->
  exists l0 l1 l2 l3, l = l0 ++ r3 :: l1 ++ r2 :: l2 ++ r1 :: l3.
Proof.
  intros Hs H1 H2 H3 H12 H23.
  apply in_split in H3 as (l0 & rest & ->).
  assert (In r2 rest) as Hr2 by (eapply newest_first_after; eauto).
  assert (In r1 rest) as Hr1 by (eapply newest_first_after; eauto; lia).
  apply newest_first_suffix in Hs. apply StronglySorted_inv in Hs as [Hs _].
  destruct (newest_first_before rest r2 r1 Hs Hr2 Hr1 H12) as (l1 & l2 & l3 & ->).
  exists l0, l1, l2, l3. reflexivity.
Qed.

(** Three Creates at three different instants, then a listing: the newest
    comes first. *)
Example list_after_three_creates :
  let w := boot 1700000000000 [0; 5; 0; 7; 0; 9]%N ∅ in
  exists l w',
    (post_all [alice_request; bob_request; carol_request] ;;
     get_api_scammers) w
    = (inr (res_json (JsonReports l)), w') /\
    map name l = ["Carol"; "Bob"; "Alice Wu"] /\
    map created l = [1700000000012; 1700000000005; 1700000000000].
Proof.
  intros w.
  exists (Array_sort newestFirst
            (stored (snd (post_all [alice_request; bob_request; carol_request]
                            w)))),
         (snd (post_all [alice_request; bob_request; carol_request] w)).
  repeat split; vm_compute; reflexivity.
Qed.

(** C6. [GET /api/scammers] answers with the whole collection, newest
    first, and leaves the world, so also the persisted collection, as it
    was: the answer is a rearrangement of the stored collection in which no
    report stands before a newer one; any three stored reports created at
    times t1 < t2 < t3 come in the order t3, t2, t1; and a collection of
    just three such reports is answered as [r3; r2; r1]. *)
Theorem C6_list_newest_first (w : World) :
  exists l,
    get_api_scammers w = (inr (res_json (JsonReports l)), w) /\
    Permutation (stored w) l /\
    newest_first l /\
    (forall r1 r2 r3,
        In r1 (stored w) -> In r2 (stored w) -> In r3 (stored w) ->
        created r1 < created r2 -> created r2 < created r3 ->
        exists l0 l1 l2 l3, l = l0 ++ r3 :: l1 ++ r2 :: l2 ++ r1 :: l3) /\
    (forall r1 r2 r3,
        Permutation (stored w) [r1; r2; r3] ->
        created r1 < created r2 -> created r2 < created r3 ->
        l = [r3; r2; r1]).
Proof.
  exists (Array_sort newestFirst (stored w)).
  assert (Hthree : forall r1 r2 r3,
      In r1 (stored w) -> In r2 (stored w) -> In r3 (stored w) ->
      created r1 < created r2 -> created r2 < created r3 ->
      exists l0 l1 l2 l3,
        Array_sort newestFirst (stored w)
        = l0 ++ r3 :: l1 ++ r2 :: l2 ++ r1 :: l3).
  { intros r1 r2 r3 H1 H2 H3 H12 H23.
    apply newest_first_three; try assumption;
      [apply Array_sort_newest_first | | |]; apply Array_sort_In; assumption. }
  split; [apply get_api_scammers_run |].
  split; [apply Array_sort_perm |].
  split; [apply Array_sort_newest_first |].
  split; [exact Hthree |].
  intros r1 r2 r3 Hp H12 H23.
  destruct (Hthree r1 r2 r3) as (l0 & l1 & l2 & l3 & E); try assumption;
    try (apply (Permutation_in _ (Permutation_sym Hp)); simpl; tauto).
  pose proof (Array_sort_length newestFirst (stored w)) as Hlen.
  rewrite (Permutation_length Hp), E in Hlen.
  repeat (rewrite ?length_app in Hlen; cbn [length] in Hlen).
  destruct l0; [| simpl in Hlen; lia].
  destruct l1; [| simpl in Hlen; lia].
  destruct l2; [| simpl in Hlen; lia].
  destruct l3; [| simpl in Hlen; lia].
  exact E.
Qed.

Lemma C6_list_newest_first_witness :
  let r1 := example_report "1000" "first" 1000 in
  let r2 := example_report "2000" "second" 2000 in
  let r3 := example_report "3000" "third" 3000 in
  let w := persist [r1; r2; r3] (boot 3000 [] ∅) in
  exists l,
    get_api_scammers w = (inr (res_json (JsonReports l)), w) /\
    l = [r3; r2; r1].
Proof.
  intros r1 r2 r3 w.
  destruct (C6_list_newest_first w) as (l & Hrun & _ & _ & _ & Hthree).
  exists l. split; [exact Hrun |].
  apply (Hthree r1 r2 r3); [apply Permutation_refl | reflexivity | reflexivity].
Defined.

(** ** A missing or unreadable collection document *)

(** C7. When the collection document is missing or empty, neither
    [GET /api/scammers] nor [GET /api/search] fails: both answer 200 with
    the empty sequence, whatever the query, and leave the world as it was. *)
Theorem C7_missing_store_reads_as_empty (w : World) (q : option string) :
  store_missing_or_empty w ->
  get_api_scammers w = (inr (res_json (JsonReports [])), w) /\
  get_api_search q w = (inr (res_json (JsonReports [])), w).
Proof.
  intros H.
  assert (Hst : stored w = []).
  { unfold stored. destruct H as [-> | [-> | ->]]; reflexivity. }
  split.
  - rewrite get_api_scammers_run, Hst. reflexivity.
  - destruct (truthy q) eqn:Hq.
    + destruct q as [s|]; [| discriminate]. apply truthy_Some in Hq.
      rewrite (get_api_search_run s w Hq), Hst. reflexivity.
    + apply get_api_search_absent. exact Hq.
Qed.

Lemma C7_missing_store_reads_as_empty_witness :
  store_missing_or_empty world_without_document /\
  get_api_scammers world_without_document
  = (inr (res_json (JsonReports [])), world_without_document) /\
  get_api_search (Some "alice") world_without_document
  = (inr (res_json (JsonReports [])), world_without_document).
Proof.
  split; [left; reflexivity |].
  apply (C7_missing_store_reads_as_empty world_without_document (Some "alice")).
  left; reflexivity.
Defined.

Lemma read_fails_cases (w : World) :
  read_fails w <->
  data_file w = NoEntry \/
  (exists e, data_file w = Unreadable e) \/
  (exists raw, data_file w = File (Malformed raw)).
Proof.
  unfold read_fails, read_attempt, bind, fs_readFileSync_DATA_FILE.
  destruct (data_file w) as [| e | [raw | l]]; simpl; split.
  - tauto.
  - intros _. exists ENOENT, w. reflexivity.
  - intros _. right. left. exists e. reflexivity.
  - intros _. exists e, w. reflexivity.
  - intros _. right. right. exists raw. reflexivity.
  - intros _. exists SyntaxError, w. reflexivity.
  - intros (e & w' & H). discriminate.
  - intros [H | [[e H] | [raw H]]]; discriminate.
Qed.

(** C9. Whenever reading the collection document fails, be it missing,
    unreadable, or unparseable, [readScammers] returns the empty collection
    and no error; so a Create over such a document, once written, leaves a
    document that holds the new report only. *)
Theorem C9_unreadable_store_is_replaced (w : World) :
  read_fails w ->
  readScammers w = (inr [], w) /\
  forall req,
    required_present req -> write_error w = None ->
    exists r w',
      post_api_scammer req w =
      (inr (res_status_json 201
              (JsonCreated true "Scammer berhasil ditambahkan" r)), w') /\
      data_file w' = File (JSON_stringify [r]).
Proof.
  intros Hf.
  assert (Hst : stored w = []).
  { apply read_fails_cases in Hf. unfold stored.
    destruct Hf as [-> | [[e ->] | [raw ->]]]; reflexivity. }
  split.
  - rewrite readScammers_run, Hst. reflexivity.
  - intros req Hreq Hw.
    exists (new_report req (clock w) (clock (tick w))).
    eexists. split.
    + apply post_api_scammer_created; assumption.
    + rewrite Hst. reflexivity.
Qed.

Lemma C9_unreadable_store_is_replaced_witness :
  read_fails world_with_corrupt_document /\
  readScammers world_with_corrupt_document
  = (inr [], world_with_corrupt_document) /\
  exists r w',
    post_api_scammer (example_request (Some "Alice Wu") (Some "phishing"))
      world_with_corrupt_document =
    (inr (res_status_json 201
            (JsonCreated true "Scammer berhasil ditambahkan" r)), w') /\
    data_file w' = File (JSON_stringify [r]).
Proof.
  assert (Hf : read_fails world_with_corrupt_document).
  { exists SyntaxError, world_with_corrupt_document. reflexivity. }
  split; [exact Hf |].
  destruct (C9_unreadable_store_is_replaced world_with_corrupt_document Hf)
    as [Hread Hpost].
  split; [exact Hread |].
  apply Hpost; [split; reflexivity | reflexivity].
Defined.

(** ** Searching *)

Lemma guarded_includes (field t : string) :
  t <> "" ->
  truthy (Some field) && includes field t = includes field t.
Proof.
  intros Ht. destruct field as [|c field]; [| reflexivity].
  rewrite includes_empty by exact Ht. reflexivity.
Qed.

Lemma guarded_includes_lower (field t : string) :
  t <> "" ->
  truthy (Some field) && includes (toLowerCase field) t
  = includes (toLowerCase field) t.
Proof.
  intros Ht. destruct field as [|c field]; [| reflexivity].
  simpl toLowerCase. rewrite includes_empty by exact Ht. reflexivity.
Qed.

Lemma search_filter_spec (q : string) (r : Report) :
  q <> "" ->
  search_filter (toLowerCase q) r = true <-> search_match q r.
Proof.
  intros Hq. apply toLowerCase_nonempty in Hq.
  unfold search_filter, search_match, ci_substring_of.
  rewrite guarded_includes, guarded_includes_lower by exact Hq.
  rewrite !orb_true_iff, !includes_spec. tauto.
Qed.

(** What the search answers for a non-empty query, as the handler has it:
    the stored reports that pass its test, the newest first. *)
Lemma get_api_search_answer (q : string) (w : World) :
  q <> "" ->
  exists l,
    get_api_search (Some q) w = (inr (res_json (JsonReports l)), w) /\
    (forall r, In r l <-> In r (stored w) /\ search_match q r) /\
    newest_first l.
Proof.
  intros Hq. eexists. split; [apply get_api_search_run; exact Hq |].
  split; [| apply Array_sort_newest_first].
  intros r. rewrite Array_sort_In, List.filter_In, search_filter_spec by exact Hq.
  reflexivity.
Qed.

(** C3, at the query "EXT" and a stored report whose phone is "555 EXT 12":
    the query occurs in the phone as given, and the report is stored, yet
    the answer is empty; the phone is compared as stored with the query
    turned to lower case, so the search for "ext" or "Ext" does not find
    the report either. *)
Theorem C3_capitals_in_phone_not_found :
  substring_of "EXT" (phone report_with_extension) /\
  stored world_with_extension = [report_with_extension] /\
  get_api_search (Some "EXT") world_with_extension
  = (inr (res_json (JsonReports [])), world_with_extension) /\
  get_api_search (Some "ext") world_with_extension
  = (inr (res_json (JsonReports [])), world_with_extension) /\
  get_api_search (Some "Ext") world_with_extension
  = (inr (res_json (JsonReports [])), world_with_extension).
Proof.
  split; [apply includes_spec; reflexivity |].
  split; [reflexivity |].
  repeat split; vm_compute; reflexivity.
Qed.

Lemma toLowerCase_char_idem (c : ascii) :
  toLowerCase_char (toLowerCase_char c) = toLowerCase_char c.
Proof. destruct c as [[] [] [] [] [] [] [] []]; reflexivity. Qed.

Lemma toLowerCase_idem (s : string) : toLowerCase (toLowerCase s) = toLowerCase s.
Proof.
  induction s as [|c s IH]; [reflexivity |].
  cbn [toLowerCase]. rewrite toLowerCase_char_idem, IH. reflexivity.
Qed.

Lemma toLowerCase_app (a b : string) :
  toLowerCase (a +:+ b) = toLowerCase a +:+ toLowerCase b.
Proof.
  induction a as [|c a IH]; [reflexivity |].
  change (String (toLowerCase_char c) (toLowerCase (a +:+ b))
          = String (toLowerCase_char c) (toLowerCase a +:+ toLowerCase b)).
  rewrite IH. reflexivity.
Qed.

(** Where the query in lower case occurs in a field as stored, the query
    occurs in the field when case is ignored. *)
Lemma lowered_occurrence_ignores_case (q field : string) :
  substring_of (toLowerCase q) field -> ci_substring_of q field.
Proof.
  intros (pre & post & ->). unfold ci_substring_of.
  exists (toLowerCase pre), (toLowerCase post).
  rewrite !toLowerCase_app, toLowerCase_idem. reflexivity.
Qed.

(** C10, amended. [GET /api/search] never looks at the website: the test it
    applies to a report does not change when the website is replaced, and
    for every non-empty query [q] and stored report [r], if [q] occurs in
    the website of [r] while it occurs in none of the name, the scam type,
    the description and the phone, even when the case of letters is
    ignored, the answer does not contain [r]. *)
Theorem C10_search_ignores_website (q : string) (w : World) (r : Report) :
  q <> "" ->
  In r (stored w) ->
  substring_of q (website r) ->
  ~ ci_substring_of q (name r) ->
  ~ ci_substring_of q (scamType r) ->
  ~ ci_substring_of q (description r) ->
  ~ ci_substring_of q (phone r) ->
  (exists l,
      get_api_search (Some q) w = (inr (res_json (JsonReports l)), w) /\
      ~ In r l) /\
  (forall term site,
      search_filter term (with_website site r) = search_filter term r).
Proof.
  intros Hq Hin Hweb Hn Hs Hd Hp. split; [| reflexivity].
  eexists. split; [apply get_api_search_run; exact Hq |].
  rewrite Array_sort_In, List.filter_In, search_filter_spec by exact Hq.
  unfold search_match. intros [_ [H | [H | [H | H]]]]; auto.
  apply Hp, lowered_occurrence_ignores_case, H.
Qed.

Lemma not_ci_substring (q field : string) :
  includes (toLowerCase field) (toLowerCase q) = false ->
  ~ ci_substring_of q field.
Proof. intros H Hs. apply includes_spec in Hs. congruence. Qed.

Lemma C10_search_ignores_website_witness :
  let w := persist [report_with_website] (boot 1700000000001 [] ∅) in
  (exists l,
      get_api_search (Some "shop") w = (inr (res_json (JsonReports l)), w) /\
      ~ In report_with_website l) /\
  (forall term site,
      search_filter term (with_website site report_with_website)
      = search_filter term report_with_website).
Proof.
  intros w.
  apply (C10_search_ignores_website "shop" w report_with_website).
  - discriminate.
  - left; reflexivity.
  - apply includes_spec. reflexivity.
  - apply not_ci_substring. reflexivity.
  - apply not_ci_substring. reflexivity.
  - apply not_ci_substring. reflexivity.
  - apply not_ci_substring. reflexivity.
Defined.

(** The query "EXT" occurs as given in the website "EXT.example" only, and
    in no case in the name, the scam type or the description; the phone is
    "ext 5", which the search compares with "ext": the report is returned. *)
Lemma C10_counterexample :
  ~ C10_as_stated "EXT" world_with_lowercase_phone report_with_lowercase_phone.
Proof.
  intros H. destruct H as (l & w' & Hrun & Hnot).
  - discriminate.
  - left. reflexivity.
  - apply includes_spec. reflexivity.
  - intros [H | [H | [H | H]]]; apply includes_spec in H; discriminate H.
  - rewrite get_api_search_run in Hrun by discriminate.
    injection Hrun as <- _. apply Hnot. left. reflexivity.
Qed.

(** ** Validation *)

(** Create is refused with status 400 whenever the name or the scam type is
    absent or is the empty text as received; the error is one fixed message
    that speaks of both the name and the scam type, and the world is left as
    it was. *)
Lemma missing_required_field_rejected (req : PostRequest) (w : World) :
  Body.name (body req) = None \/ Body.name (body req) = Some "" \/
  Body.scamType (body req) = None \/ Body.scamType (body req) = Some "" ->
  post_api_scammer req w =
  (inr (res_status_json 400 (JsonError "Nama dan jenis penipuan wajib diisi")),
   w).
Proof.
  intros H. apply post_api_scammer_rejected.
  destruct H as [-> | [-> | [-> | ->]]]; auto.
Qed.

(** C2, at a Create whose name consists of three blanks: the name is empty
    once trimmed, yet the request is not refused; the check looks at the
    name before it is trimmed, the answer is 201, and the report is stored
    with the empty name. *)
Theorem C2_blank_name_is_stored :
  let req := example_request (Some "   ") (Some "phishing") in
  blank (Body.name (body req)) /\
  exists r w',
    post_api_scammer req world_without_document =
    (inr (res_status_json 201
            (JsonCreated true "Scammer berhasil ditambahkan" r)), w') /\
    name r = "" /\
    stored w' = [r].
Proof.
  intros req. split; [reflexivity |].
  exists (new_report req 1700000000000 1700000000000),
         (snd (post_api_scammer req world_without_document)).
  split; [vm_compute; reflexivity |].
  split; reflexivity.
Qed.

(** The refusal does not tell which field is missing: a request without a
    name and a request without a scam type get the same answer. *)
Lemma validation_error_same_for_either_field (w : World) :
  post_api_scammer (example_request None (Some "phishing")) w
  = post_api_scammer (example_request (Some "Alice Wu") None) w.
Proof.
  rewrite !post_api_scammer_rejected by (simpl; auto). reflexivity.
Qed.

(** The check is on the text as received: Create is refused exactly when
    the name or the scam type is absent or empty. *)
Lemma post_api_scammer_rejected_iff (req : PostRequest) (w : World) :
  write_error w = None ->
  fst (post_api_scammer req w)
  = inr (res_status_json 400 (JsonError "Nama dan jenis penipuan wajib diisi"))
  <-> ~ required_present req.
Proof.
  intros Hw. unfold required_present.
  destruct (truthy (Body.name (body req))) eqn:Hn;
    destruct (truthy (Body.scamType (body req))) eqn:Hs.
  - rewrite post_api_scammer_created by (try split; assumption). simpl.
    split; [discriminate | tauto].
  - rewrite post_api_scammer_rejected by auto. simpl.
    split; [intros _ [_ H]; discriminate | reflexivity].
  - rewrite post_api_scammer_rejected by auto. simpl.
    split; [intros _ [H _]; discriminate | reflexivity].
  - rewrite post_api_scammer_rejected by auto. simpl.
    split; [intros _ [H _]; discriminate | reflexivity].
Qed.

(** ** Creating *)

Lemma echoes_new_report (req : PostRequest) (t0 t_id t_created : Z) :
  t0 <= t_created ->
  echoes req t0 (new_report req t_id t_created) = true.
Proof.
  intros Ht. unfold echoes, new_report; simpl.
  rewrite !bool_decide_eq_true_2 by reflexivity.
  rewrite bool_decide_eq_false_2 by apply pretty_Z_nonempty.
  simpl. apply Z.leb_le. unfold created. simpl. exact Ht.
Qed.

Lemma filter_length_perm {A} (f : A -> bool) (l l' : list A) :
  Permutation l l' ->
  length (List.filter f l) = length (List.filter f l').
Proof.
  induction 1 as [| x l l' _ IH | x y l | l l' l'' _ IH1 _ IH2]; simpl.
  - reflexivity.
  - destruct (f x); simpl; congruence.
  - destruct (f x), (f y); reflexivity.
  - congruence.
Qed.

Lemma filter_none {A} (f : A -> bool) (l : list A) :
  (forall x, In x l -> f x = false) -> List.filter f l = [].
Proof.
  induction l as [|x l IH]; simpl; [reflexivity |]. intros H.
  rewrite (H x) by (left; reflexivity).
  apply IH. intros y Hy. apply H. right. exact Hy.
Qed.

(** C4, amended. For every request whose name and scam type are not empty,
    a Create that is carried out, followed by a listing, gives a collection
    that contains the created report: its name, scam type, phone, website
    and description are the trimmed input (the empty text for an absent
    field), its evidence is the list of file names in order, its id is not
    empty and its creation time is not before the start of the call.  The
    listing holds one more such report than the collection held before; so
    exactly one, provided no stored report already showed the same fields
    and evidence with a creation time at or after the start of the call. *)
Theorem C4_create_then_list (req : PostRequest) (w : World) :
  required_present req -> write_error w = None ->
  exists r w' l,
    post_api_scammer req w =
    (inr (res_status_json 201
            (JsonCreated true "Scammer berhasil ditambahkan" r)), w') /\
    get_api_scammers w' = (inr (res_json (JsonReports l)), w') /\
    In r l /\
    name r = trimmed (Body.name (body req)) /\
    scamType r = trimmed (Body.scamType (body req)) /\
    phone r = trimmed (Body.phone (body req)) /\
    website r = trimmed (Body.website (body req)) /\
    description r = trimmed (Body.description (body req)) /\
    evidence r = evidence_of req /\
    id r <> "" /\
    clock w <= created r /\
    length (List.filter (echoes req (clock w)) l)
    = S (length (List.filter (echoes req (clock w)) (stored w))) /\
    ((forall x, In x (stored w) -> echoes req (clock w) x = false) ->
     length (List.filter (echoes req (clock w)) l) = 1%nat).
Proof.
  intros Hreq Hw.
  set (r := new_report req (clock w) (clock (tick w))).
  set (w' := persist (stored w ++ [r]) (tick (tick w))).
  assert (Hcount :
    length (List.filter (echoes req (clock w))
              (Array_sort newestFirst (stored w ++ [r])))
    = S (length (List.filter (echoes req (clock w)) (stored w)))).
  { rewrite <- (filter_length_perm _ _ _ (Array_sort_perm newestFirst _)).
    rewrite List.filter_app, length_app. simpl.
    unfold r. rewrite echoes_new_report by apply tick_clock_le.
    simpl. lia. }
  exists r, w', (Array_sort newestFirst (stored w ++ [r])).
  split; [apply post_api_scammer_created; assumption |].
  split; [apply get_api_scammers_run |].
  split; [apply Array_sort_In, in_or_app; right; left; reflexivity |].
  repeat (split; [reflexivity |]).
  split; [apply pretty_Z_nonempty |].
  split; [apply tick_clock_le |].
  split; [exact Hcount |].
  intros Hfresh. rewrite Hcount, (filter_none _ _ Hfresh). reflexivity.
Qed.

Lemma C4_create_then_list_witness :
  required_present alice_request /\ write_error frozen_world = None /\
  exists r w' l,
    post_api_scammer alice_request frozen_world =
    (inr (res_status_json 201
            (JsonCreated true "Scammer berhasil ditambahkan" r)), w') /\
    get_api_scammers w' = (inr (res_json (JsonReports l)), w') /\
    name r = "Alice Wu" /\
    length (List.filter (echoes alice_request (clock frozen_world)) l) = 1%nat.
Proof.
  assert (Hreq : required_present alice_request) by (split; reflexivity).
  split; [exact Hreq |]. split; [reflexivity |].
  destruct (C4_create_then_list alice_request frozen_world Hreq eq_refl)
    as (r & w' & l & Hpost & Hlist & _ & Hname & _ & _ & _ & _ & _ & _ & _ & _ & Hone).
  exists r, w', l. split; [exact Hpost |]. split; [exact Hlist |].
  split; [rewrite Hname; reflexivity |].
  apply Hone. intros x [].
Defined.

(** The same request sent twice within one millisecond: after the second
    Create the listing holds two reports that show the request. *)
Lemma C4_counterexample :
  ~ C4_as_stated alice_request (snd (post_api_scammer alice_request frozen_world)).
Proof.
  intros H.
  destruct H as (r & w' & l & w'' & Hpost & Hlist & Hlen);
    [split; reflexivity | reflexivity |].
  rewrite post_api_scammer_created in Hpost by (try split; reflexivity).
  injection Hpost as <- <-.
  rewrite get_api_scammers_run in Hlist. injection Hlist as <- _.
  vm_compute in Hlen. discriminate.
Qed.

(** ** Identifiers *)

(** Two created reports have the same id exactly when the clock read the
    same millisecond at their creation. *)
Lemma new_report_id_eq (req1 req2 : PostRequest) (t1 c1 t2 c2 : Z) :
  id (new_report req1 t1 c1) = id (new_report req2 t2 c2) <-> t1 = t2.
Proof.
  simpl. split; [apply pretty_Z_inj | intros ->; reflexivity].
Qed.

(** Two Creates with no tick of the clock between their readings give two
    reports with one id. *)
Lemma post_api_scammer_twice_same_id (req1 req2 : PostRequest) (w : World)
    (ds : list N) :
  required_present req1 -> required_present req2 ->
  write_error w = None -> ticks w = 0%N :: 0%N :: ds ->
  exists r1 r2 w',
    (post_api_scammer req1 ;; post_api_scammer req2) w =
    (inr (res_status_json 201
            (JsonCreated true "Scammer berhasil ditambahkan" r2)), w') /\
    stored w' = stored w ++ [r1; r2] /\
    id r1 = id r2.
Proof.
  intros H1 H2 Hw Ht.
  assert (Hc1 : clock (tick w) = clock w).
  { unfold tick, Date_now. simpl. rewrite Ht. simpl. lia. }
  assert (Ht1 : ticks (tick w) = 0%N :: ds).
  { unfold tick, Date_now. simpl. rewrite Ht. reflexivity. }
  assert (Hc2 : clock (tick (tick w)) = clock w).
  { unfold tick at 1, Date_now. simpl. rewrite Ht1. simpl. lia. }
  unfold bind. rewrite (post_api_scammer_created req1 w H1 Hw).
  rewrite post_api_scammer_created; [| exact H2 | simpl; rewrite !tick_write_error; exact Hw].
  eexists _, _, _. split; [reflexivity |].
  split.
  - rewrite !stored_persist, <- app_assoc. reflexivity.
  - apply new_report_id_eq. simpl. exact (eq_sym Hc2).
Qed.

(** C1, at two Creates within one millisecond: both are carried out, the
    listing shows the two different reports, and they carry the same id. *)
Theorem C1_same_millisecond_same_id :
  exists r1 r2 w',
    (post_api_scammer alice_request ;;
     post_api_scammer bob_request ;;
     get_api_scammers) frozen_world
    = (inr (res_json (JsonReports [r1; r2])), w') /\
    r1 <> r2 /\ id r1 = id r2.
Proof.
  exists (new_report alice_request 1700000000000 1700000000000),
         (new_report bob_request 1700000000000 1700000000000),
         (snd ((post_api_scammer alice_request ;;
                post_api_scammer bob_request ;;
                get_api_scammers) frozen_world)).
  split; [vm_compute; reflexivity |].
  split; [intros H; vm_compute in H; discriminate H | reflexivity].
Qed.

(** ** Deleting *)

(** Where the id is held by one stored report only: Delete removes that
    report and its evidence files, and a second Delete finds nothing. *)
Lemma delete_api_scammer_unique (i : string) (w : World)
    (pre post : list Report) (r : Report) :
  stored w = pre ++ r :: post ->
  (forall y, In y pre -> id y <> i) ->
  (forall y, In y post -> id y <> i) ->
  id r = i ->
  write_error w = None ->
  exists w',
    delete_api_scammer i w =
    (inr (res_json (JsonMessage true "Scammer berhasil dihapus")), w') /\
    stored w' = pre ++ post /\
    (forall f, In f (evidence r) -> f ∉ uploads w') /\
    (forall f, ~ In f (evidence r) -> f ∈ uploads w' <-> f ∈ uploads w) /\
    (exists l, get_api_scammers w' = (inr (res_json (JsonReports l)), w') /\
               forall y, In y l -> id y <> i) /\
    delete_api_scammer i w' =
    (inr (res_status_json 404 (JsonError "Scammer tidak ditemukan")), w').
Proof.
  intros Hst Hpre Hpost Hr Hw.
  assert (Hrest : forall y, In y (pre ++ post) -> id y <> i).
  { intros y Hy. apply in_app_or in Hy as [Hy | Hy]; auto. }
  eexists. split; [eapply delete_api_scammer_found; eassumption |].
  split; [reflexivity |].
  split.
  { intros f Hf. simpl. rewrite elem_of_difference, elem_of_list_to_set.
    intros [_ Hn]. apply Hn, list_elem_of_In. exact Hf. }
  split.
  { intros f Hf. simpl. rewrite elem_of_difference, elem_of_list_to_set.
    rewrite list_elem_of_In. tauto. }
  split.
  { eexists. split; [apply get_api_scammers_run |].
    intros y Hy. apply Array_sort_In in Hy. exact (Hrest y Hy). }
  apply delete_api_scammer_missing. exact Hrest.
Qed.

(** C5, at two Creates within one millisecond followed by two Deletes of
    the id they share: the first Delete removes the first report and its two
    evidence files; the second Delete is not answered with 404, it succeeds
    and removes the other report. *)
Theorem C5_second_delete_succeeds :
  let w1 := snd ((post_api_scammer alice_request ;;
                  post_api_scammer bob_request) frozen_world) in
  let w2 := snd (delete_api_scammer "1700000000000" w1) in
  let w3 := snd (delete_api_scammer "1700000000000" w2) in
  map id (stored w1) = ["1700000000000"; "1700000000000"] /\
  fst (delete_api_scammer "1700000000000" w1)
  = inr (res_json (JsonMessage true "Scammer berhasil dihapus")) /\
  map name (stored w2) = ["Bob"] /\
  map id (stored w2) = ["1700000000000"] /\
  uploads w2 = {[ "evidence-2-1.png"; "evidence-2-2.png" ]} /\
  fst (delete_api_scammer "1700000000000" w2)
  = inr (res_json (JsonMessage true "Scammer berhasil dihapus")) /\
  stored w3 = [].
Proof. vm_compute. repeat split. Qed.

(** ** Several Creates in a row *)

(** No Create is lost: after the Creates of [reqs], run one after the other
    in any order of arrival, the collection has grown by one report for each
    request. *)
Lemma post_all_appends (reqs : list PostRequest) (w : World) :
  Forall required_present reqs -> write_error w = None ->
  exists rs w',
    post_all reqs w = (inr tt, w') /\
    stored w' = stored w ++ rs /\
    length rs = length reqs /\
    write_error w' = None.
Proof.
  intros Hall. revert w. induction Hall as [|req reqs Hreq _ IH]; intros w Hw.
  - exists [], w. rewrite app_nil_r. repeat split; assumption.
  - cbn [post_all]. unfold bind at 1.
    rewrite (post_api_scammer_created req w Hreq Hw).
    match goal with |- context [post_all reqs ?w1] =>
      destruct (IH w1) as (rs & w' & Hrun & Hst & Hlen & Hw');
        [simpl; rewrite !tick_write_error; exact Hw |]
    end.
    exists (new_report req (clock w) (clock (tick w)) :: rs), w'.
    split; [exact Hrun |]. split; [| split; [simpl; congruence | exact Hw']].
    rewrite Hst, stored_persist, <- app_assoc. reflexivity.
Qed.

(** C8, at three Creates that arrive together and are handled within one
    millisecond: none is lost, the listing shows all three reports, but
    their ids are not distinct. *)
Theorem C8_concurrent_creates_share_id :
  exists l w',
    (post_all [alice_request; bob_request; carol_request] ;;
     get_api_scammers) frozen_world
    = (inr (res_json (JsonReports l)), w') /\
    map name l = ["Alice Wu"; "Bob"; "Carol"] /\
    ~ List.NoDup (map id l).
Proof.
  eexists (Array_sort newestFirst
             (stored (snd (post_all [alice_request; bob_request; carol_request]
                             frozen_world)))),
          (snd (post_all [alice_request; bob_request; carol_request]
                  frozen_world)).
  split; [vm_compute; reflexivity |].
  split; [vm_compute; reflexivity |].
  intros H. vm_compute in H.
  apply List.NoDup_cons_iff in H as [H _]. apply H. left. reflexivity.
Qed.

(** * Further properties of the handlers *)

(** ** Searching and listing together *)

(** X1. A search without a query, or with the empty query, is answered with
    the empty sequence and leaves the world as it is, whatever the
    collection holds. *)
Theorem search_without_query_is_empty (q : option string) (w : World) :
  q = None \/ q = Some "" ->
  get_api_search q w = (inr (res_json (JsonReports [])), w).
Proof.
  intros [-> | ->]; apply get_api_search_absent; reflexivity.
Qed.

Lemma search_without_query_is_empty_witness :
  stored world_with_two_reports <> [] /\
  get_api_search (Some "") world_with_two_reports
  = (inr (res_json (JsonReports [])), world_with_two_reports).
Proof.
  split; [discriminate |].
  apply (search_without_query_is_empty (Some "") world_with_two_reports).
  right. reflexivity.
Defined.

Lemma sort_insert_front (x : Report) (l : list Report) :
  (forall y, In y l -> not_older x y) ->
  sort_insert newestFirst x l = x :: l.
Proof.
  destruct l as [|y l]; [reflexivity |]. intros H. simpl.
  assert (Hy : not_older x y) by (apply H; left; reflexivity).
  unfold not_older in Hy. unfold newestFirst. fold (created x) (created y).
  destruct (Z.leb_spec (created y - created x) 0); [reflexivity | lia].
Qed.

Lemma filter_sort_insert (p : Report -> bool) (x : Report) (l : list Report) :
  newest_first l ->
  List.filter p (sort_insert newestFirst x l)
  = if p x then sort_insert newestFirst x (List.filter p l)
    else List.filter p l.
Proof.
  unfold newest_first. induction 1 as [|y l Hl IH Hy].
  - simpl. destruct (p x); reflexivity.
  - cbn [sort_insert].
    destruct (Z.leb_spec (newestFirst x y) 0) as [Hle | Hgt].
    + cbn [List.filter]. destruct (p x); [| reflexivity].
      symmetry. apply sort_insert_front.
      assert (Hxy : not_older x y)
        by (unfold not_older, newestFirst, created in *; lia).
      intros z Hz.
      assert (Hz' : In z (y :: l)).
      { revert Hz. clear. simpl. destruct (p y); simpl;
          rewrite ?List.filter_In; tauto. }
      destruct Hz' as [<- | Hz']; [exact Hxy |].
      rewrite List.Forall_forall in Hy. specialize (Hy z Hz').
      unfold not_older in *. lia.
    + cbn [List.filter]. rewrite IH.
      destruct (p y), (p x); try reflexivity.
      cbn [sort_insert].
      destruct (Z.leb_spec (newestFirst x y) 0); [lia | reflexivity].
Qed.

Lemma filter_Array_sort (p : Report -> bool) (l : list Report) :
  List.filter p (Array_sort newestFirst l)
  = Array_sort newestFirst (List.filter p l).
Proof.
  induction l as [|x l IH]; [reflexivity |].
  cbn [Array_sort List.filter].
  rewrite filter_sort_insert by apply Array_sort_newest_first.
  rewrite IH. destruct (p x); reflexivity.
Qed.

(** X2. For a non-empty query the search answers with the reports of the
    listing that pass its test, in the order the listing has them. *)
Theorem search_is_filtered_listing (q : string) (w : World) :
  q <> "" ->
  exists listing found,
    get_api_scammers w = (inr (res_json (JsonReports listing)), w) /\
    get_api_search (Some q) w = (inr (res_json (JsonReports found)), w) /\
    found = List.filter (search_filter (toLowerCase q)) listing.
Proof.
  intros Hq. eexists _, _.
  split; [apply get_api_scammers_run |].
  split; [apply get_api_search_run; exact Hq |].
  symmetry. apply filter_Array_sort.
Qed.

Lemma search_is_filtered_listing_witness :
  exists listing found,
    get_api_scammers world_with_two_reports
    = (inr (res_json (JsonReports listing)), world_with_two_reports) /\
    get_api_search (Some "o") world_with_two_reports
    = (inr (res_json (JsonReports found)), world_with_two_reports) /\
    found = List.filter (search_filter (toLowerCase "o")) listing /\
    map name listing = ["Bob"; "Alice Wu"] /\
    map name found = ["Bob"].
Proof.
  destruct (search_is_filtered_listing "o" world_with_two_reports)
    as (listing & found & Hlist & Hfound & Heq); [discriminate |].
  exists listing, found.
  split; [exact Hlist |]. split; [exact Hfound |]. split; [exact Heq |].
  rewrite get_api_scammers_run in Hlist. injection Hlist as <-.
  subst found. split; reflexivity.
Defined.

(** X3. The answer to a search depends on the query only through its lower
    case form: two non-empty queries that differ in the case of letters get
    the same answer. *)
Theorem search_ignores_case_of_query (q1 q2 : string) (w : World) :
  q1 <> "" -> toLowerCase q1 = toLowerCase q2 ->
  get_api_search (Some q1) w = get_api_search (Some q2) w.
Proof.
  intros H1 Heq.
  assert (H2 : q2 <> "").
  { intros ->. apply (toLowerCase_nonempty q1 H1). exact Heq. }
  rewrite !get_api_search_run by assumption. rewrite Heq. reflexivity.
Qed.

Lemma search_ignores_case_of_query_witness :
  "ALICE" <> "" /\ toLowerCase "ALICE" = toLowerCase "alice" /\
  get_api_search (Some "ALICE") world_with_two_reports
  = get_api_search (Some "alice") world_with_two_reports.
Proof.
  split; [discriminate |]. split; [reflexivity |].
  apply (search_ignores_case_of_query "ALICE" "alice" world_with_two_reports);
    [discriminate | reflexivity].
Defined.

(** X4. In the listing, reports created at the same instant stand in the
    order in which the collection holds them. *)
Theorem listing_keeps_order_of_ties (w : World) (t : Z) :
  exists listing,
    get_api_scammers w = (inr (res_json (JsonReports listing)), w) /\
    List.filter (fun r => created r =? t) listing
    = List.filter (fun r => created r =? t) (stored w).
Proof.
  eexists. split; [apply get_api_scammers_run |].
  apply Array_sort_ties_keep_order.
Qed.

(** ** Creating *)

(** X5. When the write of the collection document fails, a Create with
    both required fields is answered with 500 and the message of the failed
    save, and the upload directory, with the files staged for the request,
    stays as it was.  Where the write fails before the file is opened, the
    document and the collection read from it stay as they were; where it
    fails after the file has been opened, the document is left with a part
    of the text only, and the collection read from it is empty. *)
Theorem create_failed_write_outcome (req : PostRequest) (w : World)
    (f : WriteFailure) :
  required_present req -> write_error w = Some f ->
  exists w',
    post_api_scammer req w
    = (inr (res_status_json 500 (JsonError "Gagal menyimpan data")), w') /\
    uploads w' = uploads w /\
    match f with
    | FailsAtOpen _ => data_file w' = data_file w /\ stored w' = stored w
    | FailsAfterOpen _ partial =>
        data_file w' = File (Malformed partial) /\ stored w' = []
    end.
Proof.
  intros Hreq Hw. eexists.
  split; [apply (post_api_scammer_not_saved req w f); assumption |].
  destruct f as [e | e partial]; simpl.
  - rewrite !tick_stored, !tick_data_file, !tick_uploads. auto.
  - rewrite !tick_uploads. auto.
Qed.

Lemma create_failed_write_outcome_witness :
  required_present alice_request /\
  write_error full_disk_world
  = Some (FailsAfterOpen (SystemError "ENOSPC") "[") /\
  stored full_disk_world = [report_with_website] /\
  exists w',
    post_api_scammer alice_request full_disk_world
    = (inr (res_status_json 500 (JsonError "Gagal menyimpan data")), w') /\
    uploads w' = uploads full_disk_world /\
    data_file w' = File (Malformed "[") /\ stored w' = [].
Proof.
  assert (Hreq : required_present alice_request) by (split; reflexivity).
  split; [exact Hreq |]. split; [reflexivity |]. split; [reflexivity |].
  apply (create_failed_write_outcome alice_request full_disk_world
           (FailsAfterOpen (SystemError "ENOSPC") "["));
    [exact Hreq | reflexivity].
Defined.

(** X6. A Create that is carried out adds the new report at the end of the
    collection: the reports stored before are all kept, in their order, and
    the upload directory is not touched. *)
Theorem create_appends_to_collection (req : PostRequest) (w : World) :
  required_present req -> write_error w = None ->
  exists r w',
    post_api_scammer req w =
    (inr (res_status_json 201
            (JsonCreated true "Scammer berhasil ditambahkan" r)), w') /\
    stored w' = stored w ++ [r] /\
    uploads w' = uploads w /\
    write_error w' = None.
Proof.
  intros Hreq Hw. eexists _, _.
  split; [apply post_api_scammer_created; assumption |].
  split; [reflexivity |]. simpl.
  rewrite !tick_uploads, !tick_write_error. auto.
Qed.

Lemma create_appends_to_collection_witness :
  required_present alice_request /\
  write_error world_with_two_reports = None /\
  exists r w',
    post_api_scammer alice_request world_with_two_reports =
    (inr (res_status_json 201
            (JsonCreated true "Scammer berhasil ditambahkan" r)), w') /\
    stored w' = stored world_with_two_reports ++ [r] /\
    uploads w' = uploads world_with_two_reports /\
    write_error w' = None.
Proof.
  assert (Hreq : required_present alice_request) by (split; reflexivity).
  split; [exact Hreq |]. split; [reflexivity |].
  apply (create_appends_to_collection alice_request world_with_two_reports);
    [exact Hreq | reflexivity].
Defined.

(** X7. Two Creates that are carried out give their reports the same id
    exactly when the clock showed the same millisecond at the first reading
    of each; the id is the decimal text of that reading. *)
Theorem created_ids_equal_iff_same_reading (req1 req2 : PostRequest)
    (w1 w2 : World) :
  required_present req1 -> write_error w1 = None ->
  required_present req2 -> write_error w2 = None ->
  exists r1 r2 w1' w2',
    post_api_scammer req1 w1 =
    (inr (res_status_json 201
            (JsonCreated true "Scammer berhasil ditambahkan" r1)), w1') /\
    post_api_scammer req2 w2 =
    (inr (res_status_json 201
            (JsonCreated true "Scammer berhasil ditambahkan" r2)), w2') /\
    id r1 = pretty (clock w1) /\
    id r2 = pretty (clock w2) /\
    (id r1 = id r2 <-> clock w1 = clock w2).
Proof.
  intros H1 Hw1 H2 Hw2. eexists _, _, _, _.
  split; [apply post_api_scammer_created; assumption |].
  split; [apply post_api_scammer_created; assumption |].
  split; [reflexivity |]. split; [reflexivity |].
  apply new_report_id_eq.
Qed.

Lemma created_ids_equal_iff_same_reading_witness :
  let w2 := snd (post_api_scammer alice_request world_with_two_reports) in
  exists r1 r2 w1' w2',
    post_api_scammer alice_request world_with_two_reports =
    (inr (res_status_json 201
            (JsonCreated true "Scammer berhasil ditambahkan" r1)), w1') /\
    post_api_scammer bob_request w2 =
    (inr (res_status_json 201
            (JsonCreated true "Scammer berhasil ditambahkan" r2)), w2') /\
    id r1 = "3000" /\ id r2 = "3002" /\ id r1 <> id r2.
Proof.
  intros w2.
  assert (Ha : required_present alice_request) by (split; reflexivity).
  assert (Hb : required_present bob_request) by (split; reflexivity).
  destruct (created_ids_equal_iff_same_reading alice_request bob_request
              world_with_two_reports w2 Ha eq_refl Hb eq_refl)
    as (r1 & r2 & w1' & w2' & H1 & H2 & Hid1 & Hid2 & Hiff).
  exists r1, r2, w1', w2'.
  split; [exact H1 |]. split; [exact H2 |].
  split; [exact Hid1 |]. split; [exact Hid2 |].
  intros Heq. apply Hiff in Heq. vm_compute in Heq. discriminate Heq.
Defined.

(** X8. The check of the required fields looks at the text as received: a
    name that is not empty but consists of white space only passes it, and
    the report is stored with the empty name. *)
Theorem create_accepts_blank_name (req : PostRequest) (w : World) (n : string) :
  Body.name (body req) = Some n -> n <> "" -> trim n = "" ->
  truthy (Body.scamType (body req)) = true ->
  write_error w = None ->
  exists r w',
    post_api_scammer req w =
    (inr (res_status_json 201
            (JsonCreated true "Scammer berhasil ditambahkan" r)), w') /\
    name r = "" /\
    In r (stored w').
Proof.
  intros Hn Hne Htrim Hs Hw.
  assert (Hreq : required_present req).
  { split; [| exact Hs]. rewrite Hn. apply truthy_Some. exact Hne. }
  eexists _, _.
  split; [apply post_api_scammer_created; assumption |].
  split.
  - simpl. unfold trimmed. rewrite Hn. exact Htrim.
  - rewrite stored_persist. apply in_or_app. right. left. reflexivity.
Qed.

Lemma create_accepts_blank_name_witness :
  let req := example_request (Some "   ") (Some "phishing") in
  exists r w',
    post_api_scammer req world_without_document =
    (inr (res_status_json 201
            (JsonCreated true "Scammer berhasil ditambahkan" r)), w') /\
    name r = "" /\
    In r (stored w').
Proof.
  intros req.
  apply (create_accepts_blank_name req world_without_document "   ");
    [reflexivity | discriminate | reflexivity | reflexivity | reflexivity].
Defined.

(** X9. Creates handled one after the other lose nothing: the collection
    grows by one report for each request, in the order of arrival, each with
    the trimmed name of its request, and the reports stored before are kept
    in front. *)
Theorem creates_in_a_row_all_stored (reqs : list PostRequest) (w : World) :
  Forall required_present reqs -> write_error w = None ->
  exists rs w',
    post_all reqs w = (inr tt, w') /\
    stored w' = stored w ++ rs /\
    map name rs = map (fun req => trimmed (Body.name (body req))) reqs /\
    write_error w' = None.
Proof.
  intros Hall. revert w. induction Hall as [|req reqs Hreq _ IH]; intros w Hw.
  - exists [], w. rewrite app_nil_r. repeat split; assumption.
  - cbn [post_all]. unfold bind at 1.
    rewrite (post_api_scammer_created req w Hreq Hw).
    match goal with |- context [post_all reqs ?w1] =>
      destruct (IH w1) as (rs & w' & Hrun & Hst & Hnames & Hw');
        [simpl; rewrite !tick_write_error; exact Hw |]
    end.
    exists (new_report req (clock w) (clock (tick w)) :: rs), w'.
    split; [exact Hrun |].
    split; [rewrite Hst, stored_persist, <- app_assoc; reflexivity |].
    split; [simpl; rewrite Hnames; reflexivity | exact Hw'].
Qed.

Lemma creates_in_a_row_all_stored_witness :
  exists rs w',
    post_all [alice_request; bob_request; carol_request] world_with_two_reports
    = (inr tt, w') /\
    stored w' = stored world_with_two_reports ++ rs /\
    map name rs = ["Alice Wu"; "Bob"; "Carol"] /\
    write_error w' = None.
Proof.
  apply (creates_in_a_row_all_stored
           [alice_request; bob_request; carol_request] world_with_two_reports).
  - repeat constructor.
  - reflexivity.
Defined.

(** ** Deleting *)

Lemma delete_api_scammer_not_saved (i : string) (w : World)
    (pre post : list Report) (r : Report) (f : WriteFailure) :
  stored w = pre ++ r :: post ->
  (forall y, In y pre -> id y <> i) ->
  id r = i ->
  write_error w = Some f ->
  delete_api_scammer i w =
  (inr (res_status_json 500 (JsonError "Gagal menghapus data")),
   after_failed_write f (without_uploads (evidence r) w)).
Proof.
  intros Hst Hpre Hr Hw. unfold delete_api_scammer, try_catch.
  unfold bind at 1. rewrite readScammers_run, Hst.
  rewrite (findIndex_first _ pre post r).
  2:{ intros y Hy. apply bool_decide_eq_false. exact (Hpre y Hy). }
  2:{ apply bool_decide_eq_true. exact Hr. }
  destruct (Z.eqb_spec (Z.of_nat (length pre)) (-1)) as [He | _]; [lia |].
  unfold bind at 1. rewrite element_middle.
  unfold bind at 1. rewrite delete_files_run.
  rewrite splice1_middle.
  unfold bind at 1. rewrite (writeScammers_failed _ _ f) by exact Hw.
  reflexivity.
Qed.

(** X10. A Delete of an id that no stored report carries is answered with
    404 and changes nothing, neither the collection nor the upload
    directory. *)
Theorem delete_unknown_id_changes_nothing (i : string) (w : World) :
  (forall r, In r (stored w) -> id r <> i) ->
  delete_api_scammer i w =
  (inr (res_status_json 404 (JsonError "Scammer tidak ditemukan")), w).
Proof. apply delete_api_scammer_missing. Qed.

Lemma delete_unknown_id_changes_nothing_witness :
  (forall r, In r (stored world_with_two_reports) -> id r <> "1500") /\
  delete_api_scammer "1500" world_with_two_reports =
  (inr (res_status_json 404 (JsonError "Scammer tidak ditemukan")),
   world_with_two_reports).
Proof.
  assert (H : forall r, In r (stored world_with_two_reports) -> id r <> "1500").
  { intros r [<- | [<- | []]]; discriminate. }
  split; [exact H |].
  apply (delete_unknown_id_changes_nothing "1500" world_with_two_reports H).
Defined.

(** X11. A Delete that is carried out removes the first stored report that
    carries the id and no other: the reports before and after it are kept in
    their order.  Of the upload directory it removes the evidence files of
    that report and nothing else; whether those files were there makes no
    difference to the answer. *)
Theorem delete_removes_first_match (i : string) (w : World)
    (pre post : list Report) (r : Report) :
  stored w = pre ++ r :: post ->
  (forall y, In y pre -> id y <> i) ->
  id r = i ->
  write_error w = None ->
  exists w',
    delete_api_scammer i w =
    (inr (res_json (JsonMessage true "Scammer berhasil dihapus")), w') /\
    stored w' = pre ++ post /\
    (forall f, f ∈ uploads w' <-> f ∈ uploads w /\ ~ In f (evidence r)).
Proof.
  intros Hst Hpre Hr Hw. eexists.
  split; [eapply delete_api_scammer_found; eassumption |].
  split; [reflexivity |].
  intros f. simpl.
  rewrite elem_of_difference, elem_of_list_to_set, list_elem_of_In.
  reflexivity.
Qed.

Lemma delete_removes_first_match_witness :
  exists w',
    delete_api_scammer "2000" (world_with_evidence None) =
    (inr (res_json (JsonMessage true "Scammer berhasil dihapus")), w') /\
    stored w' = [example_report "1000" "Alice Wu" 1000;
                 example_report "2000" "Carol" 2500] /\
    (forall f, f ∈ uploads w' <->
               f ∈ uploads (world_with_evidence None) /\
               ~ In f (evidence report_with_evidence)).
Proof.
  apply (delete_removes_first_match "2000" (world_with_evidence None)
           [example_report "1000" "Alice Wu" 1000]
           [example_report "2000" "Carol" 2500] report_with_evidence).
  - reflexivity.
  - intros y [<- | []]. discriminate.
  - reflexivity.
  - reflexivity.
Defined.

(** X12. When the write of the collection document fails, a Delete of a
    stored id is answered with 500 and the message of the failed delete,
    and the evidence files of the report are removed all the same.  Where
    the write fails before the file is opened, the document is unchanged
    and the report stays in the collection; where it fails after the file
    has been opened, the document is left with a part of the text only,
    and the collection read from it is empty. *)
Theorem delete_failed_write_outcome (i : string) (w : World)
    (pre post : list Report) (r : Report) (f : WriteFailure) :
  stored w = pre ++ r :: post ->
  (forall y, In y pre -> id y <> i) ->
  id r = i ->
  write_error w = Some f ->
  exists w',
    delete_api_scammer i w =
    (inr (res_status_json 500 (JsonError "Gagal menghapus data")), w') /\
    (forall x, x ∈ uploads w' <-> x ∈ uploads w /\ ~ In x (evidence r)) /\
    match f with
    | FailsAtOpen _ => data_file w' = data_file w /\ In r (stored w')
    | FailsAfterOpen _ partial =>
        data_file w' = File (Malformed partial) /\ stored w' = []
    end.
Proof.
  intros Hst Hpre Hr Hw. eexists.
  split; [eapply delete_api_scammer_not_saved; eassumption |].
  split.
  - intros x. destruct f; simpl;
      rewrite elem_of_difference, elem_of_list_to_set, list_elem_of_In;
      reflexivity.
  - destruct f as [e | e partial]; simpl; [| auto].
    split; [reflexivity |].
    change (In r (stored w)). rewrite Hst. apply in_or_app. right. left.
    reflexivity.
Qed.

Lemma delete_failed_write_outcome_witness :
  let f := FailsAtOpen EACCES in
  exists w',
    delete_api_scammer "2000" (world_with_evidence (Some f)) =
    (inr (res_status_json 500 (JsonError "Gagal menghapus data")), w') /\
    (forall x, x ∈ uploads w' <->
               x ∈ uploads (world_with_evidence (Some f)) /\
               ~ In x (evidence report_with_evidence)) /\
    data_file w' = data_file (world_with_evidence (Some f)) /\
    In report_with_evidence (stored w').
Proof.
  intros f.
  apply (delete_failed_write_outcome "2000" (world_with_evidence (Some f))
           [example_report "1000" "Alice Wu" 1000]
           [example_report "2000" "Carol" 2500] report_with_evidence f).
  - reflexivity.
  - intros y [<- | []]. discriminate.
  - reflexivity.
  - reflexivity.
Defined.

(** X13. Where one stored report only carries the id, a Delete that is
    carried out leaves no report with that id: the listing shows none, and a
    second Delete of the id is answered with 404 and changes nothing. *)
Theorem delete_twice_of_unique_id (i : string) (w : World)
    (pre post : list Report) (r : Report) :
  stored w = pre ++ r :: post ->
  (forall y, In y pre -> id y <> i) ->
  (forall y, In y post -> id y <> i) ->
  id r = i ->
  write_error w = None ->
  exists w' listing,
    delete_api_scammer i w =
    (inr (res_json (JsonMessage true "Scammer berhasil dihapus")), w') /\
    get_api_scammers w' = (inr (res_json (JsonReports listing)), w') /\
    (forall y, In y listing -> id y <> i) /\
    delete_api_scammer i w' =
    (inr (res_status_json 404 (JsonError "Scammer tidak ditemukan")), w').
Proof.
  intros Hst Hpre Hpost Hr Hw.
  assert (Hrest : forall y, In y (pre ++ post) -> id y <> i).
  { intros y Hy. apply in_app_or in Hy as [Hy | Hy]; auto. }
  eexists _, _.
  split; [eapply delete_api_scammer_found; eassumption |].
  split; [apply get_api_scammers_run |].
  split.
  - intros y Hy. apply Array_sort_In in Hy. exact (Hrest y Hy).
  - apply delete_api_scammer_missing. exact Hrest.
Qed.

Lemma delete_twice_of_unique_id_witness :
  exists w' listing,
    delete_api_scammer "1000" (world_with_evidence None) =
    (inr (res_json (JsonMessage true "Scammer berhasil dihapus")), w') /\
    get_api_scammers w' = (inr (res_json (JsonReports listing)), w') /\
    (forall y, In y listing -> id y <> "1000") /\
    delete_api_scammer "1000" w' =
    (inr (res_status_json 404 (JsonError "Scammer tidak ditemukan")), w').
Proof.
  apply (delete_twice_of_unique_id "1000" (world_with_evidence None) []
           [report_with_evidence; example_report "2000" "Carol" 2500]
           (example_report "1000" "Alice Wu" 1000)).
  - reflexivity.
  - intros y [].
  - intros y [<- | [<- | []]]; discriminate.
  - reflexivity.
  - reflexivity.
Defined.

(** ** Create followed by another operation *)

(** X14. A Create followed by the Delete of the id it gave, on a collection
    in which no report carried that id: the collection is again what it was
    before the two calls, and the evidence files named in the request are
    gone from the upload directory. *)
Theorem create_then_delete_restores (req : PostRequest) (w : World) :
  required_present req -> write_error w = None ->
  (forall y, In y (stored w) -> id y <> pretty (clock w)) ->
  exists r w1 w2,
    post_api_scammer req w =
    (inr (res_status_json 201
            (JsonCreated true "Scammer berhasil ditambahkan" r)), w1) /\
    delete_api_scammer (id r) w1 =
    (inr (res_json (JsonMessage true "Scammer berhasil dihapus")), w2) /\
    stored w2 = stored w /\
    (forall f, f ∈ uploads w2 <-> f ∈ uploads w /\ ~ In f (evidence_of req)).
Proof.
  intros Hreq Hw Hfresh.
  set (r := new_report req (clock w) (clock (tick w))).
  set (w1 := persist (stored w ++ [r]) (tick (tick w))).
  assert (Hw1 : write_error w1 = None).
  { unfold w1. simpl. rewrite !tick_write_error. exact Hw. }
  exists r, w1, (persist (stored w ++ []) (without_uploads (evidence r) w1)).
  split; [apply post_api_scammer_created; assumption |].
  split.
  - apply (delete_api_scammer_found (id r) w1 (stored w) [] r);
      [reflexivity | exact Hfresh | reflexivity | exact Hw1].
  - split; [rewrite stored_persist; apply app_nil_r |].
    intros f. simpl. rewrite !tick_uploads.
    rewrite elem_of_difference, elem_of_list_to_set, list_elem_of_In.
    reflexivity.
Qed.

Lemma create_then_delete_restores_witness :
  exists r w1 w2,
    post_api_scammer alice_request world_with_two_reports =
    (inr (res_status_json 201
            (JsonCreated true "Scammer berhasil ditambahkan" r)), w1) /\
    delete_api_scammer (id r) w1 =
    (inr (res_json (JsonMessage true "Scammer berhasil dihapus")), w2) /\
    stored w2 = stored world_with_two_reports /\
    (forall f, f ∈ uploads w2 <->
               f ∈ uploads world_with_two_reports /\
               ~ In f (evidence_of alice_request)).
Proof.
  apply (create_then_delete_restores alice_request world_with_two_reports).
  - split; reflexivity.
  - reflexivity.
  - intros y [<- | [<- | []]]; vm_compute; discriminate.
Defined.

Lemma startsWith_refl (s : string) : startsWith s s = true.
Proof.
  induction s as [|c s IH]; [reflexivity |]. simpl.
  rewrite bool_decide_eq_true_2 by reflexivity. exact IH.
Qed.

Lemma includes_refl (s : string) : includes s s = true.
Proof. destruct s; cbn [includes]; rewrite startsWith_refl; reflexivity. Qed.

(** X15. A report that has been created is found by searching for its name:
    when the trimmed name of the request is not empty, a search for any
    query that equals it up to the case of letters returns the created
    report. *)
Theorem create_then_search_by_name (req : PostRequest) (w : World) (q : string) :
  required_present req -> write_error w = None ->
  q <> "" ->
  toLowerCase q = toLowerCase (trimmed (Body.name (body req))) ->
  exists r w1 found,
    post_api_scammer req w =
    (inr (res_status_json 201
            (JsonCreated true "Scammer berhasil ditambahkan" r)), w1) /\
    get_api_search (Some q) w1 = (inr (res_json (JsonReports found)), w1) /\
    In r found.
Proof.
  intros Hreq Hw Hq Hlow. eexists _, _, _.
  split; [apply post_api_scammer_created; assumption |].
  split; [apply get_api_search_run; exact Hq |].
  apply Array_sort_In, List.filter_In. split.
  - rewrite stored_persist. apply in_or_app. right. left. reflexivity.
  - unfold search_filter. cbn [name new_report].
    rewrite Hlow, includes_refl. reflexivity.
Qed.

Lemma create_then_search_by_name_witness :
  exists r w1 found,
    post_api_scammer alice_request world_with_two_reports =
    (inr (res_status_json 201
            (JsonCreated true "Scammer berhasil ditambahkan" r)), w1) /\
    get_api_search (Some "ALICE wu") w1
    = (inr (res_json (JsonReports found)), w1) /\
    In r found.
Proof.
  apply (create_then_search_by_name alice_request world_with_two_reports
           "ALICE wu").
  - split; reflexivity.
  - reflexivity.
  - discriminate.
  - reflexivity.
Defined.

(** ** Names of uploaded files *)

Lemma string_app_assoc (a b c : string) : (a +:+ b) +:+ c = a +:+ (b +:+ c).
Proof.
  induction a as [|x a IH]; [reflexivity |].
  change (String x ((a +:+ b) +:+ c) = String x (a +:+ b +:+ c)).
  rewrite IH. reflexivity.
Qed.

Lemma pretty_N_char_digit (x : N) : is_digit (pretty_N_char x) = true.
Proof. unfold pretty_N_char. repeat case_match; reflexivity. Qed.

Lemma pretty_N_go_digits (x : N) (s : string) :
  digits_only s = true -> digits_only (pretty_N_go x s) = true.
Proof.
  revert s. induction (N.lt_wf_0 x) as [x _ IH]. intros s Hs.
  destruct (N.eq_dec x 0%N) as [-> | Hx].
  - rewrite pretty_N_go_0. exact Hs.
  - rewrite pretty_N_go_step by lia. apply IH; [apply N.div_lt; lia |].
    simpl. rewrite pretty_N_char_digit. exact Hs.
Qed.

Lemma pretty_Z_digits (t : Z) : 0 <= t -> digits_only (pretty t) = true.
Proof.
  destruct t as [|p|p]; [reflexivity | | lia]. intros _.
  unfold pretty, pretty_Z, pretty, pretty_positive, pretty, pretty_N.
  destruct (decide (N.pos p = 0%N)); [discriminate |].
  apply pretty_N_go_digits. reflexivity.
Qed.

(** Digits followed by something that does not begin with a digit: the
    text shows where the digits end. *)
Lemma digits_split (d1 d2 e1 e2 : string) :
  digits_only d1 = true -> digits_only d2 = true ->
  no_leading_digit e1 = true -> no_leading_digit e2 = true ->
  d1 +:+ e1 = d2 +:+ e2 -> d1 = d2 /\ e1 = e2.
Proof.
  assert (Hnil : forall s, "" +:+ s = s) by reflexivity.
  assert (Hcons : forall c a b, String c a +:+ b = String c (a +:+ b))
    by reflexivity.
  revert d2. induction d1 as [|c d1 IH]; intros [|c' d2] H1 H2 He1 He2 Heq;
    rewrite ?Hnil, ?Hcons in Heq; simpl in H1, H2.
  - auto.
  - subst e1. simpl in He1. apply andb_true_iff in H2 as [Hc _].
    rewrite Hc in He1. discriminate.
  - subst e2. simpl in He2. apply andb_true_iff in H1 as [Hc _].
    rewrite Hc in He2. discriminate.
  - injection Heq as -> Heq.
    apply andb_true_iff in H1 as [_ H1]. apply andb_true_iff in H2 as [_ H2].
    destruct (IH d2 H1 H2 He1 He2 Heq) as [-> ->]. auto.
Qed.

Lemma storage_filename_run (path_extname : string -> string)
    (file : Upload.t) (rounded : Z) (w : World) :
  storage_filename path_extname file rounded w =
  (inr (Upload.fieldname file +:+ "-" +:+ pretty (clock w) +:+ "-"
        +:+ pretty rounded +:+ path_extname (Upload.originalname file)),
   tick w).
Proof.
  unfold storage_filename. run_step Date_now_run. unfold ret.
  rewrite !string_app_assoc. reflexivity.
Qed.

(** X16. The names generated for two files of the same form field, at
    clock readings and with random numbers that are not negative, are equal
    exactly when the clock reading, the random number and the extension are
    the same; nothing else of the original name has a part in it. *)
Theorem storage_filename_equal_iff (path_extname : string -> string)
    (file1 file2 : Upload.t) (rounded1 rounded2 : Z) (w1 w2 : World) :
  Upload.fieldname file1 = Upload.fieldname file2 ->
  0 <= clock w1 -> 0 <= clock w2 -> 0 <= rounded1 -> 0 <= rounded2 ->
  no_leading_digit (path_extname (Upload.originalname file1)) = true ->
  no_leading_digit (path_extname (Upload.originalname file2)) = true ->
  exists name1 name2,
    storage_filename path_extname file1 rounded1 w1 = (inr name1, tick w1) /\
    storage_filename path_extname file2 rounded2 w2 = (inr name2, tick w2) /\
    (name1 = name2 <->
     clock w1 = clock w2 /\ rounded1 = rounded2 /\
     path_extname (Upload.originalname file1)
     = path_extname (Upload.originalname file2)).
Proof.
  intros Hfield Ht1 Ht2 Hr1 Hr2 He1 He2. eexists _, _.
  split; [apply storage_filename_run |].
  split; [apply storage_filename_run |].
  rewrite Hfield. split.
  - intros Heq. do 2 apply String.app_inj in Heq.
    apply digits_split in Heq as [Ht Heq];
      [| apply pretty_Z_digits; assumption ..| reflexivity | reflexivity].
    apply String.app_inj in Heq.
    apply digits_split in Heq as [Hr Hext];
      [| apply pretty_Z_digits; assumption ..| assumption | assumption].
    apply pretty_Z_inj in Ht. apply pretty_Z_inj in Hr. auto.
  - intros (-> & -> & ->). reflexivity.
Qed.

Lemma storage_filename_equal_iff_witness :
  let photo := {| Upload.fieldname := "evidence";
                  Upload.originalname := "photo.png";
                  Upload.mimetype := "image/png" |} in
  let scan := {| Upload.fieldname := "evidence";
                 Upload.originalname := "scan.png";
                 Upload.mimetype := "image/png" |} in
  exists name1 name2,
    storage_filename from_last_dot photo 123456789 world_with_two_reports
    = (inr name1, tick world_with_two_reports) /\
    storage_filename from_last_dot scan 123456789 world_with_two_reports
    = (inr name2, tick world_with_two_reports) /\
    name1 = "evidence-3000-123456789.png" /\
    name1 = name2.
Proof.
  intros photo scan.
  destruct (storage_filename_equal_iff from_last_dot photo scan
              123456789 123456789 world_with_two_reports world_with_two_reports)
    as (name1 & name2 & H1 & H2 & Hiff);
    [reflexivity | vm_compute; discriminate | vm_compute; discriminate
    | lia | lia | reflexivity | reflexivity |].
  exists name1, name2. split; [exact H1 |]. split; [exact H2 |].
  split.
  - rewrite storage_filename_run in H1. injection H1 as <-. reflexivity.
  - apply Hiff. repeat split; reflexivity.
Defined.

(** ** Refused uploads *)

(** X17. A file whose declared type does not begin with [image/] is refused
    by the filter with an error, and the error-handling middleware answers
    that error with 400 and the message that only images are allowed; a
    file whose type begins with [image/] is accepted without an error. *)
Theorem refused_upload_is_answered_400 (file : Upload.t) :
  (startsWith (Upload.mimetype file) "image/" = true /\
   fileFilter file = (None, true)) \/
  (startsWith (Upload.mimetype file) "image/" = false /\
   exists error,
     fileFilter file = (Some error, false) /\
     error_middleware error
     = res_status_json 400 (JsonError "Hanya file gambar yang diizinkan!")).
Proof.
  unfold fileFilter.
  destruct (startsWith (Upload.mimetype file) "image/"); [left | right].
  - auto.
  - split; [reflexivity |]. eexists. split; reflexivity.
Qed.

(** X18. The error-handling middleware answers with 400 the
    [MulterError]s coded [LIMIT_FILE_SIZE] and [LIMIT_FILE_COUNT] and every
    error that carries the message of the filter; every other error, a
    [MulterError] with another code among them, is answered with 500 and
    the message of an internal error. *)
Theorem error_middleware_400_or_500 (error : ExpressError) :
  let expected :=
    (exists message,
        error = MulterError "LIMIT_FILE_SIZE" message \/
        error = MulterError "LIMIT_FILE_COUNT" message) \/
    error_message error = "Only image files are allowed!" in
  (expected /\ status (error_middleware error) = 400) \/
  (~ expected /\
   error_middleware error
   = res_status_json 500 (JsonError "Internal server error")).
Proof.
  unfold error_middleware.
  destruct error as [code message | message]; simpl.
  - case_bool_decide as Hsize.
    { left. split; [| reflexivity]. left. exists message. subst. auto. }
    case_bool_decide as Hcount.
    { left. split; [| reflexivity]. left. exists message. subst. auto. }
    case_bool_decide as Hmsg.
    { left. split; [| reflexivity]. right. exact Hmsg. }
    right. split; [| reflexivity].
    intros [[m [H | H]] | H]; try injection H as -> _; congruence.
  - case_bool_decide as Hmsg.
    { left. split; [| reflexivity]. right. exact Hmsg. }
    right. split; [| reflexivity].
    intros [[m [H | H]] | H]; try discriminate H; congruence.
Qed.

(** ** Start-up *)

(** X19. The initialization of the data file at start-up writes the empty
    collection only where no document exists.  Where it returns, a document
    is there, the collection read from it is the one read before, and a
    world that had a document, readable or not, is unchanged; it throws
    only where no document exists and none can be written, and then the
    world is unchanged when the write failed before the file was opened. *)
Theorem initialize_data_file_keeps_collection (w : World) :
  match initialize_data_file w with
  | (inr _, w') =>
      data_file w' <> NoEntry /\
      stored w' = stored w /\
      uploads w' = uploads w /\
      (data_file w <> NoEntry -> w' = w)
  | (inl e, w') =>
      data_file w = NoEntry /\
      stored w' = stored w /\
      uploads w' = uploads w /\
      (write_error w = Some (FailsAtOpen e) /\ w' = w \/
       exists partial,
         write_error w = Some (FailsAfterOpen e partial) /\
         data_file w' = File (Malformed partial))
  end.
Proof.
  unfold initialize_data_file, bind, fs_existsSync_DATA_FILE,
    fs_writeFileSync_DATA_FILE, stored.
  destruct (data_file w) as [| e | text] eqn:Hfile; simpl.
  - destruct (write_error w) as [[e | e partial] |] eqn:Hw; simpl.
    + rewrite Hfile. repeat split. left. split; reflexivity.
    + repeat split. right. exists partial. split; reflexivity.
    + repeat split; [discriminate | congruence].
  - rewrite Hfile. repeat split; discriminate.
  - rewrite Hfile. repeat split; discriminate.
Qed.
